(** * mysql2sqlite: the mirror run, the schema importer and the storage checks

    A shallow embedding of [mysql2sqlite.py] and [mysql2sqlite_lib.py].

    The script talks to three collaborators that are not part of the
    repository: the operating system ([os.path], [os.access], [os.makedirs]),
    the MySQL connector and the [sqlite3] module.  Every call to one of them
    is a primitive of a small state-and-exception monad: the call is recorded
    in the event list of the run and answered by an [engine], a record of
    transition functions over an arbitrary state type.  Theorems proved for
    every engine hold whatever the collaborators do; [RefEngine] is one
    concrete engine, used to run the script on explicit inputs.

    Logging at INFO, WARNING and ERROR level (including [log.exception]) is
    recorded as events that carry the format string of the call, not its
    interpolated arguments; DEBUG calls neither raise nor influence control
    flow and are left out.  Cursor objects are identified with the
    connection they were created from. *)

From stdpp Require Import gmap strings list.
From Stdlib Require Import ZArith Ascii.

Local Open Scope Z_scope.

(** ** Python values, exceptions and observable events *)

Inductive pyval :=
| PyNone
| PyBool (b : bool)
| PyInt (z : Z)
| PyStr (s : string).

(** A row of a result set: a tuple of column values. *)
Definition row := list pyval.

(** Python's [bool(x)]. *)
Definition py_bool (v : pyval) : bool :=
  match v with
  | PyNone => false
  | PyBool b => b
  | PyInt z => negb (z =? 0)
  | PyStr s => negb (bool_decide (s = EmptyString))
  end.

(** The argument handed to [sys.exit]. *)
Inductive exit_arg :=
| ExitStatus (n : Z)          (* sys.exit(1) *)
| ExitMessage (m : string)    (* sys.exit(error_message) *)
| ExitException.              (* sys.exit(error) with the caught OSError *)

(** Exceptions the two files raise or let through.  In Python 3 [IOError]
    is an alias of [OSError]. *)
Inductive exn :=
| SystemExit (a : exit_arg)
| KeyError (k : string)
| OSError
| NoSectionError (section : string)
| sqlite3_Error
| mysql_Error
| TypeError
| IndexError.

Inductive result (A : Type) :=
| Ok (a : A)
| Raise (e : exn).
Arguments Ok {A} a.
Arguments Raise {A} e.

Inductive level := INFO | WARNING | ERROR.

(** A connection object of the [sqlite3] module. *)
Definition handle := nat.

Inductive event :=
| Log (lv : level) (msg : string)
| Makedirs (path : string)
| MysqlConnect (kwargs : list (string * pyval))
| MysqlExecute (sql : string)
| MysqlFetchall
| MysqlClose
| SqliteConnect (path : string)
| SqliteExecutescript (h : handle) (sql : string)
| SqliteExecute (h : handle) (sql : string)
| SqliteExecuteParams (h : handle) (sql : string) (params : row)
| SqliteFetchone (h : handle)
| SqliteCommit (h : handle)
| SqliteClose (h : handle).

Global Instance pyval_eq_dec : EqDecision pyval.
Proof. solve_decision. Defined.
Global Instance level_eq_dec : EqDecision level.
Proof. solve_decision. Defined.
Global Instance event_eq_dec : EqDecision event.
Proof. solve_decision. Defined.

(** ** Settings objects *)

(** [GeneralSettings]: three dictionaries built from the general config
    file; the values of [flags] have been converted by [getboolean]. *)
Record GeneralSettings := {
  flags : gmap string bool;
  mysqldb_config : gmap string pyval;
  sqlitedb_config : gmap string string
}.

(** A Python [dict] whose iteration order matters: keys in insertion order. *)
Definition odict (V : Type) := list (string * V).

Fixpoint odict_get {V} (k : string) (d : odict V) : option V :=
  match d with
  | [] => None
  | (k', v) :: d' => if decide (k = k') then Some v else odict_get k d'
  end.

(** [d[k] = v]: an existing key keeps its position, a new key goes last. *)
Fixpoint odict_set {V} (k : string) (v : V) (d : odict V) : odict V :=
  match d with
  | [] => [(k, v)]
  | (k', v') :: d' =>
      if decide (k = k') then (k, v) :: d' else (k', v') :: odict_set k v d'
  end.

Definition odict_keys {V} (d : odict V) : list string := d.*1.

(** [dict(pairs)]: later pairs override earlier ones. *)
Definition py_dict (pairs : list (string * string)) : gmap string string :=
  foldl (λ m p, <[p.1 := p.2]> m) ∅ pairs.

(** [QuerySettings]: section name -> (option name -> SQL text). *)
Record QuerySettings := {
  queries : odict (gmap string string)
}.

(** What [configparser] made of the candidate files: the files it could
    read, the section names in file order, and the options of a section
    ([None] stands for [NoSectionError]). *)
Record ConfigParser := {
  processed_files : list string;
  sections : list string;
  items : string → option (list (string * string))
}.

(** [x is not None] for a value produced by [parser.items]: with
    [allow_no_value] left at its default every option value is a [str]. *)
Definition is_not_None (v : string) : bool := true.

(** ** The collaborators *)

Inductive access_mode := R_OK | W_OK.

(** Transition functions of the outside world over a state type [S].  A
    [false] or [None] answer means that the call raised the library's error
    ([OSError], [mysql.Error], [sqlite3.Error]). *)
Record engine (S : Type) := {
  e_path_exists : string → S → bool;
  e_path_isdir : string → S → bool;
  e_access : string → access_mode → S → bool;
  e_makedirs : string → S → bool * S;
  e_mysql_connect : list (string * pyval) → S → bool * S;
  e_mysql_execute : string → S → bool * S;
  e_mysql_fetchall : S → option (list row) * S;
  e_mysql_close : S → bool * S;
  e_sqlite_connect : string → S → option handle * S;
  e_isolation_level : handle → S → option string;
  e_executescript : handle → string → S → bool * S;
  e_execute : handle → string → S → bool * S;
  e_execute_params : handle → string → row → S → bool * S;
  e_fetchone : handle → S → option (option row) * S;
  e_commit : handle → S → bool * S;
  e_close : handle → S → bool * S
}.
Arguments e_path_exists {S}. Arguments e_path_isdir {S}.
Arguments e_access {S}. Arguments e_makedirs {S}.
Arguments e_mysql_connect {S}. Arguments e_mysql_execute {S}.
Arguments e_mysql_fetchall {S}. Arguments e_mysql_close {S}.
Arguments e_sqlite_connect {S}. Arguments e_isolation_level {S}.
Arguments e_executescript {S}. Arguments e_execute {S}.
Arguments e_execute_params {S}. Arguments e_fetchone {S}.
Arguments e_commit {S}. Arguments e_close {S}.

(** ** The monad: state of the world, events emitted, value or exception *)

Definition M (S A : Type) : Type := S → list event * S * result A.

Definition ret {S A} (a : A) : M S A := λ s, ([], s, Ok a).

Definition raise {S A} (e : exn) : M S A := λ s, ([], s, Raise e).

Definition bind {S A B} (m : M S A) (k : A → M S B) : M S B :=
  λ s,
    match m s with
    | (t1, s1, Ok a) =>
        match k a s1 with
        | (t2, s2, r) => (t1 ++ t2, s2, r)
        end
    | (t1, s1, Raise e) => (t1, s1, Raise e)
    end.

Declare Scope py_scope.
Delimit Scope py_scope with py.
Notation "x <- c1 ;; c2" := (bind c1 (λ x, c2))
  (at level 100, c1 at next level, right associativity) : py_scope.
Notation "c1 ;; c2" := (bind c1 (λ _, c2))
  (at level 100, right associativity) : py_scope.
Local Open Scope py_scope.

(** [try: m except <classes selected by h>: handler]. *)
Definition try_except {S A} (m : M S A) (h : exn → option (M S A)) : M S A :=
  λ s,
    match m s with
    | (t1, s1, Raise e) =>
        match h e with
        | Some k =>
            match k s1 with
            | (t2, s2, r) => (t1 ++ t2, s2, r)
            end
        | None => (t1, s1, Raise e)
        end
    | o => o
    end.

Definition emit {S} (ev : event) : M S unit := λ s, ([ev], s, Ok tt).

Definition log {S} (lv : level) (msg : string) : M S unit := emit (Log lv msg).

(** [log.exception] logs at ERROR level. *)
Definition log_exception {S} (msg : string) : M S unit := emit (Log ERROR msg).

(** The message of [log.exception(error)]: the text of the exception. *)
Definition error_object : string := "%s".

(** [try: m except ...: handler else: e]; the value is that of [m]. *)
Definition try_except_else {S A} (m : M S A) (h : exn → option (M S A))
    (e : M S unit) : M S A :=
  λ s,
    match m s with
    | (t1, s1, Ok a) =>
        match e s1 with
        | (t2, s2, Ok _) => (t1 ++ t2, s2, Ok a)
        | (t2, s2, Raise x) => (t1 ++ t2, s2, Raise x)
        end
    | (t1, s1, Raise x) =>
        match h x with
        | Some k =>
            match k s1 with
            | (t2, s2, r) => (t1 ++ t2, s2, r)
            end
        | None => (t1, s1, Raise x)
        end
    end.

Definition sys_exit {S A} (a : exit_arg) : M S A := raise (SystemExit a).

(** [d[k]] on a dictionary. *)
Definition getitem {S V} (d : gmap string V) (k : string) : M S V :=
  match d !! k with
  | Some v => ret v
  | None => raise (KeyError k)
  end.

Definition odict_getitem {S V} (d : odict V) (k : string) : M S V :=
  match odict_get k d with
  | Some v => ret v
  | None => raise (KeyError k)
  end.

(** A query of the world that cannot fail and changes nothing. *)
Definition ask {S A} (f : S → A) : M S A := λ s, ([], s, Ok (f s)).

(** A call recorded as [ev] that either succeeds or raises [e]. *)
Definition call {S} (ev : event) (op : S → bool * S) (e : exn) : M S unit :=
  λ s,
    match op s with
    | (true, s') => ([ev], s', Ok tt)
    | (false, s') => ([ev], s', Raise e)
    end.

(** A call recorded as [ev] that returns a value or raises [e]. *)
Definition call_val {S A} (ev : event) (op : S → option A * S) (e : exn)
  : M S A :=
  λ s,
    match op s with
    | (Some a, s') => ([ev], s', Ok a)
    | (None, s') => ([ev], s', Raise e)
    end.

Fixpoint for_each {S X} (xs : list X) (body : X → M S unit) : M S unit :=
  match xs with
  | [] => ret tt
  | x :: xs' => body x ;; for_each xs' body
  end.

Fixpoint for_acc {S X A} (xs : list X) (acc : A) (body : A → X → M S A)
  : M S A :=
  match xs with
  | [] => ret acc
  | x :: xs' => acc' <- body acc x ;; for_acc xs' acc' body
  end.

(** The newline character of the Python sources. *)
Definition nl : string := String (Ascii.ascii_of_nat 10) EmptyString.

(** ["\n{};\n".format(stmt)] *)
Definition schema_line (stmt : string) : string := nl +:+ stmt +:+ ";" +:+ nl.

Definition count_tables_sql : string :=
  "SELECT COUNT(name) FROM sqlite_master WHERE type='table';".

Definition drop_table_sql (table : string) : string :=
  "DROP TABLE IF EXISTS " +:+ table.

Definition missing_dir_message (base_dir : string) : string :=
  "The " +:+ base_dir +:+
  " directory does not exist and the option to create " +:+
  "that directory structure is disabled. Please create it and " +:+
  "grant your script user write access to it or confirm access " +:+
  "and enable the option to created needed directories within " +:+
  "the mysql2sqlite_general.ini file.".

(** ** mysql2sqlite_lib.py *)

Section Library.
Context {S : Type} (E : engine S).

(** [except sqlite3.Error as error: log.exception(msg, ...); sys.exit(1)] *)
Definition on_sqlite_error (msg : string) {A} (e : exn) : option (M S A) :=
  match e with
  | sqlite3_Error => Some (log_exception msg ;; sys_exit (ExitStatus 1))
  | _ => None
  end.


(** [open_db_connection] *)
Definition open_db_connection (settings : GeneralSettings)
    (database : pyval) : M S unit :=
  _ <- getitem (mysqldb_config settings) "user" ;;
  _ <- getitem (mysqldb_config settings) "host" ;;
  _ <- getitem (mysqldb_config settings) "port" ;;
  _ <- getitem (mysqldb_config settings) "raise_on_warnings" ;;
  log INFO "Connecting to %s database on %s at port %s" ;;
  try_except
    (user <- getitem (mysqldb_config settings) "user" ;;
     password <- getitem (mysqldb_config settings) "password" ;;
     host <- getitem (mysqldb_config settings) "host" ;;
     port <- getitem (mysqldb_config settings) "port" ;;
     raise_on_warnings <-
       getitem (mysqldb_config settings) "raise_on_warnings" ;;
     let kwargs :=
       [("user", user); ("password", password); ("host", host);
        ("port", port); ("database", database);
        ("raise_on_warnings", raise_on_warnings)] in
     call (MysqlConnect kwargs) (e_mysql_connect E kwargs) mysql_Error)
    (λ e, match e with
          | mysql_Error =>
              Some (log_exception "Unable to connect to database: %s" ;;
                    sys_exit (ExitStatus 1))
          | _ => None
          end).

(** [file_can_be_modified] *)
Definition file_can_be_modified (full_path_to_file : string) : M S bool :=
  ask (e_access E full_path_to_file W_OK).

(** [dir_can_be_modified] *)
Definition dir_can_be_modified (full_path_to_directory : string)
  : M S bool :=
  ask (e_access E full_path_to_directory W_OK).

(** [verify_sqlite_storage] *)
Definition verify_sqlite_storage (general_settings : GeneralSettings)
    (db_settings : QuerySettings) : M S unit :=
  base_dir <- getitem (sqlitedb_config general_settings) "base_dir" ;;
  isdir <- ask (e_path_isdir E base_dir) ;;
  if negb isdir then
    _ <- getitem (sqlitedb_config general_settings) "base_dir" ;;
    log WARNING "%s does not exist!" ;;
    fail_on_warnings <-
      getitem (flags general_settings) "fail_on_warnings" ;;
    (if fail_on_warnings : bool then
       log ERROR "Aborting due to missing directory!" ;;
       sys_exit (ExitStatus 1)
     else ret tt) ;;
    create_directories <-
      getitem (flags general_settings) "create_directories" ;;
    if create_directories : bool then
      try_except_else
        (base_dir <-
           getitem (sqlitedb_config general_settings) "base_dir" ;;
         call (Makedirs base_dir) (e_makedirs E base_dir) OSError)
        (λ e, match e with
              | OSError =>
                  Some (_ <- getitem (sqlitedb_config general_settings)
                               "base_dir" ;;
                        _ <- getitem (sqlitedb_config general_settings)
                               "db_file" ;;
                        log_exception "Failed to create %s path to hold %s: %s" ;;
                        sys_exit ExitException)
              | _ => None
              end)
        (_ <- getitem (sqlitedb_config general_settings) "base_dir" ;;
         log INFO "Created %s directory to hold SQLite db file.")
    else
      base_dir <- getitem (sqlitedb_config general_settings) "base_dir" ;;
      let error_message := missing_dir_message base_dir in
      log ERROR error_message ;;
      sys_exit (ExitMessage error_message)
  else
    db_file <- getitem (sqlitedb_config general_settings) "db_file" ;;
    file_found <- ask (e_path_exists E db_file) ;;
    if file_found : bool then
      db_file <- getitem (sqlitedb_config general_settings) "db_file" ;;
      writable <- file_can_be_modified db_file ;;
      if negb writable then
        _ <- getitem (sqlitedb_config general_settings) "db_file" ;;
        log ERROR "%s exists, but lack of write permissions" ;;
        sys_exit (ExitStatus 1)
      else ret tt
    else
      base_dir <- getitem (sqlitedb_config general_settings) "base_dir" ;;
      writable <- dir_can_be_modified base_dir ;;
      if negb writable then
        _ <- getitem (sqlitedb_config general_settings) "base_dir" ;;
        log ERROR "%s exists, but lack of write permissions" ;;
        sys_exit (ExitStatus 1)
      else ret tt.

(** [query_settings.queries[table][field]] *)
Definition query (query_settings : QuerySettings) (table field : string)
  : M S string :=
  entry <- odict_getitem (queries query_settings) table ;;
  getitem entry field.

(** [('index' in query_settings.queries[table])
     and (query_settings.queries[table]['index'] is not None)] *)
Definition index_defined (query_settings : QuerySettings) (table : string)
  : M S bool :=
  entry <- odict_getitem (queries query_settings) table ;;
  match entry !! "index" with
  | Some _ =>
      index <- query query_settings table "index" ;;
      ret (is_not_None index)
  | None => ret false
  end.

(** The body of the [for table in query_settings.queries] loop of
    [import_sqlite_db_schema]: one pass extends the script. *)
Definition schema_step (query_settings : QuerySettings)
    (sqlite_db_schema table : string) : M S string :=
  new <- query query_settings table "new" ;;
  let sqlite_db_schema := sqlite_db_schema +:+ schema_line new in
  has_index <- index_defined query_settings table ;;
  if has_index : bool then
    index <- query query_settings table "index" ;;
    ret (sqlite_db_schema +:+ schema_line index)
  else ret sqlite_db_schema.

Definition import_started : string :=
  "Creating SQLite database with imported schema ...".

(** [import_sqlite_db_schema] *)
Definition import_sqlite_db_schema (db_connection : handle)
    (general_settings : GeneralSettings) (query_settings : QuerySettings)
  : M S unit :=
  log INFO import_started ;;
  sqlite_db_schema <-
    for_acc (odict_keys (queries query_settings)) EmptyString
      (schema_step query_settings) ;;
  try_except_else
    (call (SqliteExecutescript db_connection sqlite_db_schema)
       (e_executescript E db_connection sqlite_db_schema) sqlite3_Error)
    (on_sqlite_error "Failed to create schema: %s")
    (log INFO "Created database with imported schema ...").

(** [sqlite_db_has_tables] *)
Definition sqlite_db_has_tables (full_path_to_db : string) : M S bool :=
  con <- call_val (SqliteConnect full_path_to_db)
           (e_sqlite_connect E full_path_to_db) sqlite3_Error ;;
  let cursor := con in
  call (SqliteExecute cursor count_tables_sql)
    (e_execute E cursor count_tables_sql) sqlite3_Error ;;
  fetched <- call_val (SqliteFetchone cursor) (e_fetchone E cursor)
               sqlite3_Error ;;
  table_count <- match fetched with
                 | None => raise TypeError
                 | Some [] => raise IndexError
                 | Some (v :: _) => ret v
                 end ;;
  ret (py_bool table_count).

End Library.

(** ** mysql2sqlite.py *)

Section Script.
Context {S : Type} (E : engine S).

(** Lines 184-217: open the MySQL connection, decide whether the SQLite
    file is new, check the storage location for a new file, and open the
    SQLite connection.  Returns [SQLITE_DB_IS_NEW] and
    [sqlite_connection]. *)
Definition open_connections (general_settings : GeneralSettings)
    (query_settings : QuerySettings) : M S (bool * handle) :=
  log INFO "Opening connection to MySQL database" ;;
  database <- getitem (mysqldb_config general_settings) "database" ;;
  open_db_connection E general_settings database ;;
  db_file <- getitem (sqlitedb_config general_settings) "db_file" ;;
  file_found <- ask (e_path_exists E db_file) ;;
  let SQLITE_DB_IS_NEW := negb file_found in
  (if SQLITE_DB_IS_NEW then
     try_except
       (verify_sqlite_storage E general_settings query_settings)
       (λ e, match e with
             | OSError => Some (log_exception error_object ;;
                                sys_exit (ExitStatus 1))
             | _ => None
             end)
   else ret tt) ;;
  sqlite_connection <-
    try_except_else
      (db_file <- getitem (sqlitedb_config general_settings) "db_file" ;;
       call_val (SqliteConnect db_file) (e_sqlite_connect E db_file)
         sqlite3_Error)
      (λ e, match e with
            | sqlite3_Error =>
                Some (_ <- getitem (sqlitedb_config general_settings)
                             "db_file" ;;
                      log_exception
                        "Failed to connect to the %s database: %s" ;;
                      sys_exit (ExitStatus 1))
            | _ => None
            end)
      (log INFO "Connected to SQLite database ...") ;;
  ret (SQLITE_DB_IS_NEW, sqlite_connection).

(** Lines 220-238: probe the destination for tables and import the schema
    when the file is new or has none.  Returns whether the importer was
    called. *)
Definition prepare_schema (general_settings : GeneralSettings)
    (query_settings : QuerySettings) (SQLITE_DB_IS_NEW : bool)
    (sqlite_connection : handle) : M S bool :=
  db_file <- getitem (sqlitedb_config general_settings) "db_file" ;;
  has_tables <- sqlite_db_has_tables E db_file ;;
  let SQLITE_DB_MISSING_TABLES := negb has_tables in
  if SQLITE_DB_IS_NEW || SQLITE_DB_MISSING_TABLES then
    _ <- getitem (sqlitedb_config general_settings) "db_file" ;;
    log INFO
      "%s database file is new or is missing tables; importing schema." ;;
    import_sqlite_db_schema E sqlite_connection general_settings
      query_settings ;;
    ret true
  else
    _ <- getitem (sqlitedb_config general_settings) "db_file" ;;
    log INFO
      "%s database file exists and has tables; skipping schema import" ;;
    ret false.

Definition autocommit_warning : string :=
  "autocommit mode is enabled. " +:+
  "This results in poor performance when many updates are required.".

(** Lines 240-249: "Verify that autocommit is turned off". *)
Definition check_autocommit (general_settings : GeneralSettings)
    (sqlite_connection : handle) : M S unit :=
  isolation_level <- ask (e_isolation_level E sqlite_connection) ;;
  match isolation_level with
  | None =>
      fail_on_warnings <-
        getitem (flags general_settings) "fail_on_warnings" ;;
      if fail_on_warnings : bool then log WARNING autocommit_warning
      else ret tt
  | Some _ =>
      log INFO ("autocommit mode is disabled. " +:+
                "This should help performance for large batches of updates")
  end.

(** Lines 268-296: the second probe decides [DROP_TABLES]. *)
Definition decide_drop_tables (general_settings : GeneralSettings)
  : M S bool :=
  log INFO "Continuing with db prep work ..." ;;
  db_file <- getitem (sqlitedb_config general_settings) "db_file" ;;
  has_tables <- sqlite_db_has_tables E db_file ;;
  if has_tables : bool then ret true else ret false.

(** Lines 309-344: the [if DROP_TABLES:] block of the table loop. *)
Definition recreate_table (query_settings : QuerySettings)
    (sqlite_cursor : handle) (table : string) : M S unit :=
  log INFO "Recreating %s SQLite table" ;;
  try_except
    (let sql := drop_table_sql table in
     call (SqliteExecute sqlite_cursor sql) (e_execute E sqlite_cursor sql)
       sqlite3_Error)
    (on_sqlite_error error_object) ;;
  try_except
    (new <- query query_settings table "new" ;;
     call (SqliteExecute sqlite_cursor new) (e_execute E sqlite_cursor new)
       sqlite3_Error)
    (on_sqlite_error error_object) ;;
  has_index <- index_defined query_settings table ;;
  if has_index : bool then
    try_except
      (index <- query query_settings table "index" ;;
       call (SqliteExecute sqlite_cursor index)
         (e_execute E sqlite_cursor index) sqlite3_Error)
      (on_sqlite_error error_object)
  else ret tt.

(** Lines 351-363: one pass of [for row in mysql_data]. *)
Definition write_row (query_settings : QuerySettings)
    (sqlite_cursor : handle) (table : string) (r : row) : M S unit :=
  try_except
    (write <- query query_settings table "write" ;;
     call (SqliteExecuteParams sqlite_cursor write r)
       (e_execute_params E sqlite_cursor write r) sqlite3_Error)
    (λ e, match e with
          | sqlite3_Error =>
              Some (log_exception
                      "Failed to write entries to %s SQLite table: %s" ;;
                    log_exception error_object ;;
                    sys_exit (ExitStatus 1))
          | _ => None
          end).

(** Lines 301-367: one pass of [for table in query_settings.queries]. *)
Definition mirror_table (query_settings : QuerySettings)
    (sqlite_cursor : handle) (DROP_TABLES : bool) (table : string)
  : M S unit :=
  read <- query query_settings table "read" ;;
  call (MysqlExecute read) (e_mysql_execute E read) mysql_Error ;;
  (if DROP_TABLES then recreate_table query_settings sqlite_cursor table
   else ret tt) ;;
  log INFO "Pulling data from %s MySQL table ..." ;;
  mysql_data <- call_val MysqlFetchall (e_mysql_fetchall E) mysql_Error ;;
  log INFO "Updating %s SQLite table ..." ;;
  for_each mysql_data (write_row query_settings sqlite_cursor table) ;;
  log INFO ("Updates to %s table are complete. " +:+
            "The last inserted id was: %s" +:+ nl).

(** Lines 301-367: the whole table loop. *)
Definition mirror_tables (query_settings : QuerySettings)
    (sqlite_cursor : handle) (DROP_TABLES : bool) : M S unit :=
  for_each (odict_keys (queries query_settings))
    (mirror_table query_settings sqlite_cursor DROP_TABLES).

(** Lines 382-398: commit, then close both connections. *)
Definition cleanup (sqlite_connection : handle) : M S unit :=
  log INFO "Committing transactions ..." ;;
  call (SqliteCommit sqlite_connection) (e_commit E sqlite_connection)
    sqlite3_Error ;;
  log INFO "Closing MySQL database connection ..." ;;
  call MysqlClose (e_mysql_close E) mysql_Error ;;
  log INFO "Closing SQLite database connection ..." ;;
  call (SqliteClose sqlite_connection) (e_close E sqlite_connection)
    sqlite3_Error ;;
  log INFO "Transactions committed, database connections closed".

(** Everything after the SQLite connection is open (lines 220-398). *)
Definition mirror_run (general_settings : GeneralSettings)
    (query_settings : QuerySettings) (SQLITE_DB_IS_NEW : bool)
    (sqlite_connection : handle) : M S unit :=
  _ <- prepare_schema general_settings query_settings SQLITE_DB_IS_NEW
         sqlite_connection ;;
  check_autocommit general_settings sqlite_connection ;;
  let sqlite_cursor := sqlite_connection in
  DROP_TABLES <- decide_drop_tables general_settings ;;
  mirror_tables query_settings sqlite_cursor DROP_TABLES ;;
  cleanup sqlite_connection.

(** The script from "Open connections to databases" to its last line. *)
Definition main (general_settings : GeneralSettings)
    (query_settings : QuerySettings) : M S unit :=
  opened <- open_connections general_settings query_settings ;;
  mirror_run general_settings query_settings opened.1 opened.2.

End Script.

(** ** Reading a run *)

Definition events_of {S A} (o : list event * S * result A) : list event :=
  o.1.1.
Definition state_of {S A} (o : list event * S * result A) : S := o.1.2.
Definition result_of {S A} (o : list event * S * result A) : result A := o.2.

Definition is_log (ev : event) : bool :=
  match ev with Log _ _ => true | _ => false end.
Definition is_commit (ev : event) : bool :=
  match ev with SqliteCommit _ => true | _ => false end.
Definition is_script (ev : event) : bool :=
  match ev with SqliteExecutescript _ _ => true | _ => false end.
Definition is_row_write (ev : event) : bool :=
  match ev with SqliteExecuteParams _ _ _ => true | _ => false end.
Definition is_close (ev : event) : bool :=
  match ev with SqliteClose _ => true | _ => false end.
Definition is_warning (ev : event) : bool :=
  match ev with Log WARNING _ => true | _ => false end.
Definition is_import_start (ev : event) : bool :=
  match ev with
  | Log INFO msg => String.eqb msg import_started
  | _ => false
  end.

(** How often events selected by [p] occur in a run. *)
Fixpoint count (p : event → bool) (t : list event) : nat :=
  match t with
  | [] => 0
  | ev :: t' => ((if p ev then 1 else 0) + count p t')%nat
  end.

(** The calls made to the collaborators: a run without its log lines. *)
Fixpoint calls (t : list event) : list event :=
  match t with
  | [] => []
  | ev :: t' => if is_log ev then calls t' else ev :: calls t'
  end.

(** The process ended through [sys.exit]. *)
Definition fatal {A} (r : result A) : Prop :=
  ∃ a, r = Raise (SystemExit a).


(** ** A reference engine

    One concrete world for running the script: a directory, a database
    file, a MySQL source, and an SQLite engine that understands the few
    statement forms a catalog needs.  It follows the documented behaviour
    of the collaborators:
    - [sqlite3.connect] creates a missing file when its directory exists
      and is writable, and fails otherwise;
    - [executescript] first commits any pending transaction and runs the
      script outside of one, so each statement is written to the file as
      it is executed;
    - [execute] opens a transaction implicitly before an INSERT (unless the
      connection is in autocommit mode); other statements run inside the
      pending transaction when there is one and directly on the file
      otherwise;
    - [commit] writes the pending transaction to the file;
    - a parameterised statement needs as many values as it has [?] marks. *)

Module RefEngine.

(** Table name -> rows. *)
Abbreviation database := (gmap string (list row)).

Record world := {
  base_dir : string;
  db_file : string;
  dir_exists : bool;
  dir_writable : bool;
  makedirs_allowed : bool;
  file : option database;
  file_writable : bool;
  autocommit : bool;
  next_handle : handle;
  pending : gmap handle (option database);  (* open connections *)
  fetched : gmap handle row;                (* result of the last query *)
  mysql_up : bool;
  source : gmap string (list row);          (* read statement -> rows *)
  mysql_result : option (list row)
}.

Definition set_file (f : option database) (w : world) : world :=
  {| base_dir := base_dir w; db_file := db_file w;
     dir_exists := dir_exists w; dir_writable := dir_writable w;
     makedirs_allowed := makedirs_allowed w; file := f;
     file_writable := file_writable w; autocommit := autocommit w;
     next_handle := next_handle w; pending := pending w;
     fetched := fetched w; mysql_up := mysql_up w; source := source w;
     mysql_result := mysql_result w |}.

Definition set_dir (e wr : bool) (w : world) : world :=
  {| base_dir := base_dir w; db_file := db_file w;
     dir_exists := e; dir_writable := wr;
     makedirs_allowed := makedirs_allowed w; file := file w;
     file_writable := file_writable w; autocommit := autocommit w;
     next_handle := next_handle w; pending := pending w;
     fetched := fetched w; mysql_up := mysql_up w; source := source w;
     mysql_result := mysql_result w |}.

Definition set_conns (n : handle) (p : gmap handle (option database))
    (f : gmap handle row) (w : world) : world :=
  {| base_dir := base_dir w; db_file := db_file w;
     dir_exists := dir_exists w; dir_writable := dir_writable w;
     makedirs_allowed := makedirs_allowed w; file := file w;
     file_writable := file_writable w; autocommit := autocommit w;
     next_handle := n; pending := p; fetched := f;
     mysql_up := mysql_up w; source := source w;
     mysql_result := mysql_result w |}.

Definition set_mysql_result (r : option (list row)) (w : world) : world :=
  {| base_dir := base_dir w; db_file := db_file w;
     dir_exists := dir_exists w; dir_writable := dir_writable w;
     makedirs_allowed := makedirs_allowed w; file := file w;
     file_writable := file_writable w; autocommit := autocommit w;
     next_handle := next_handle w; pending := pending w;
     fetched := fetched w; mysql_up := mysql_up w; source := source w;
     mysql_result := r |}.

(** *** Reading SQL text *)

Fixpoint strip_prefix (p s : string) : option string :=
  match p, s with
  | EmptyString, _ => Some s
  | String a p', String b s' =>
      if decide (a = b) then strip_prefix p' s' else None
  | String _ _, EmptyString => None
  end.

Definition ends_name (a : Ascii.ascii) : bool :=
  Ascii.is_space a || bool_decide (a = "("%char)
  || bool_decide (a = ";"%char).

(** The identifier a string starts with. *)
Fixpoint leading_name (s : string) : string :=
  match s with
  | EmptyString => EmptyString
  | String a s' =>
      if ends_name a then EmptyString else String a (leading_name s')
  end.

Fixpoint drop_spaces (s : string) : string :=
  match s with
  | String a s' => if Ascii.is_space a then drop_spaces s' else s
  | EmptyString => EmptyString
  end.

(** Split a script at its semicolons. *)
Fixpoint split_script (cur : string) (s : string) : list string :=
  match s with
  | EmptyString => [String.rev cur]
  | String a s' =>
      if bool_decide (a = ";"%char)
      then String.rev cur :: split_script EmptyString s'
      else split_script (String a cur) s'
  end.

Fixpoint question_marks (s : string) : nat :=
  match s with
  | EmptyString => 0%nat
  | String a s' =>
      ((if bool_decide (a = "?"%char) then 1 else 0) + question_marks s')%nat
  end.

Inductive statement :=
| Nothing
| DropTable (t : string)
| CreateTable (t : string)
| CreateIndex
| Insert (t : string)
| CountTables
| Unknown.

Definition parse (sql : string) : statement :=
  let s := drop_spaces sql in
  if decide (s = EmptyString) then Nothing
  else if decide (s = count_tables_sql) then CountTables
  else match strip_prefix "DROP TABLE IF EXISTS " s with
  | Some r => DropTable (leading_name r)
  | None =>
  match strip_prefix "CREATE TABLE " s with
  | Some r => CreateTable (leading_name r)
  | None =>
  match strip_prefix "CREATE INDEX " s with
  | Some _ => CreateIndex
  | None =>
  match strip_prefix "INSERT INTO " s with
  | Some r => Insert (leading_name r)
  | None => Unknown
  end end end end.

(** The effect of a statement on a database; [None] is [sqlite3.Error]. *)
Definition apply (st : statement) (params : row) (d : database)
  : option database :=
  match st with
  | Nothing | CreateIndex | CountTables => Some d
  | DropTable t => Some (delete t d)
  | CreateTable t =>
      match d !! t with
      | Some _ => None
      | None => Some (<[t := []]> d)
      end
  | Insert t =>
      match d !! t with
      | Some rows => Some (<[t := rows ++ [params]]> d)
      | None => None
      end
  | Unknown => None
  end.

Definition opens_transaction (st : statement) : bool :=
  match st with Insert _ => true | _ => false end.

(** *** The transition functions *)

Definition path_exists (p : string) (w : world) : bool :=
  (bool_decide (p = db_file w) && bool_decide (is_Some (file w)))
  || (bool_decide (p = base_dir w) && dir_exists w).

Definition path_isdir (p : string) (w : world) : bool :=
  bool_decide (p = base_dir w) && dir_exists w.

Definition access (p : string) (m : access_mode) (w : world) : bool :=
  match m with
  | R_OK => path_exists p w
  | W_OK =>
      (bool_decide (p = db_file w) && bool_decide (is_Some (file w))
       && file_writable w)
      || (bool_decide (p = base_dir w) && dir_exists w && dir_writable w)
  end.

Definition makedirs (p : string) (w : world) : bool * world :=
  if bool_decide (p = base_dir w) && negb (dir_exists w)
     && makedirs_allowed w
  then (true, set_dir true true w)
  else (false, w).

Definition mysql_connect (kwargs : list (string * pyval)) (w : world)
  : bool * world := (mysql_up w, w).

Definition mysql_execute (sql : string) (w : world) : bool * world :=
  match source w !! sql with
  | Some rows => (true, set_mysql_result (Some rows) w)
  | None => (false, w)
  end.

Definition mysql_fetchall (w : world) : option (list row) * world :=
  (mysql_result w, set_mysql_result None w).

Definition mysql_close (w : world) : bool * world := (true, w).

Definition open_handle (w : world) : option handle * world :=
  let h := next_handle w in
  (Some h, set_conns (Datatypes.S h) (<[h := None]> (pending w)) (fetched w) w).

Definition sqlite_connect (p : string) (w : world) : option handle * world :=
  if bool_decide (p = db_file w) then
    match file w with
    | Some _ => open_handle w
    | None =>
        if dir_exists w && dir_writable w
        then open_handle (set_file (Some ∅) w)
        else (None, w)
    end
  else (None, w).

Definition isolation_level (h : handle) (w : world) : option string :=
  if autocommit w then None else Some EmptyString.

(** The database a connection sees: its pending transaction, or the
    file. *)
Definition view (h : handle) (w : world) : option database :=
  match pending w !! h with
  | Some (Some d) => Some d
  | Some None => file w
  | None => None
  end.

(** Run one statement on connection [h]. *)
Definition run_statement (h : handle) (sql : string) (params : row)
    (w : world) : bool * world :=
  let st := parse sql in
  if negb (question_marks sql =? length params)%nat then (false, w) else
  match pending w !! h, view h w with
  | Some txn, Some d =>
      match apply st params d with
      | Some d' =>
          let w1 :=
            match st with
            | CountTables =>
                set_conns (next_handle w) (pending w)
                  (<[h := [PyInt (Z.of_nat (size d))]]> (fetched w)) w
            | _ => w
            end in
          if bool_decide (is_Some txn)
             || (opens_transaction st && negb (autocommit w))
          then (true, set_conns (next_handle w1)
                        (<[h := Some d']> (pending w1)) (fetched w1) w1)
          else (true, set_file (Some d') w1)
      | None => (false, w)
      end
  | _, _ => (false, w)
  end.

Definition commit (h : handle) (w : world) : bool * world :=
  match pending w !! h with
  | Some (Some d) =>
      (true, set_conns (next_handle w) (<[h := None]> (pending w))
               (fetched w) (set_file (Some d) w))
  | Some None => (true, w)
  | None => (false, w)
  end.

Fixpoint run_script (h : handle) (stmts : list string) (w : world)
  : bool * world :=
  match stmts with
  | [] => (true, w)
  | sql :: rest =>
      match run_statement h sql [] w with
      | (true, w') => run_script h rest w'
      | (false, w') => (false, w')
      end
  end.

Definition executescript (h : handle) (script : string) (w : world)
  : bool * world :=
  match commit h w with
  | (true, w') => run_script h (split_script EmptyString script) w'
  | (false, w') => (false, w')
  end.

Definition fetchone (h : handle) (w : world) : option (option row) * world :=
  match pending w !! h with
  | Some _ =>
      (Some (fetched w !! h),
       set_conns (next_handle w) (pending w) (delete h (fetched w)) w)
  | None => (None, w)
  end.

Definition close (h : handle) (w : world) : bool * world :=
  match pending w !! h with
  | Some _ =>
      (true, set_conns (next_handle w) (delete h (pending w))
               (delete h (fetched w)) w)
  | None => (false, w)
  end.

Definition eng : engine world :=
  {| e_path_exists := path_exists;
     e_path_isdir := path_isdir;
     e_access := access;
     e_makedirs := makedirs;
     e_mysql_connect := mysql_connect;
     e_mysql_execute := mysql_execute;
     e_mysql_fetchall := mysql_fetchall;
     e_mysql_close := mysql_close;
     e_sqlite_connect := sqlite_connect;
     e_isolation_level := isolation_level;
     e_executescript := executescript;
     e_execute := λ h sql, run_statement h sql [];
     e_execute_params := run_statement;
     e_fetchone := fetchone;
     e_commit := commit;
     e_close := close |}.

(** Number of tables in the database file, as a fresh connection would
    count them. *)
Definition tables_on_file (w : world) : nat :=
  match file w with
  | Some d => size d
  | None => 0
  end.

(** Connections that are still open. *)
Definition open_connections_of (w : world) : list handle :=
  (map_to_list (pending w)).*1.

End RefEngine.

(** Every event of every run of [m] satisfies [P]. *)
Definition emits {S A} (P : event → Prop) (m : M S A) : Prop :=
  ∀ s, Forall P (events_of (m s)).


(** ** The order of calls the specification asks for *)

(** [queries[table][fld]], with the empty string where it is not defined. *)
Definition field (qs : QuerySettings) (table fld : string) : string :=
  match odict_get table (queries qs) with
  | Some entry => default EmptyString (entry !! fld)
  | None => EmptyString
  end.

(** The catalog entry of [table] has an [index] statement. *)
Definition has_index (qs : QuerySettings) (table : string) : bool :=
  match odict_get table (queries qs) with
  | Some entry => bool_decide (is_Some (entry !! "index"))
  | None => false
  end.

(** Drop, create and, when there is one, index. *)
Definition recreate_calls (qs : QuerySettings) (conn : handle)
    (table : string) : list event :=
  [SqliteExecute conn (drop_table_sql table);
   SqliteExecute conn (field qs table "new")]
  ++ (if has_index qs table
      then [SqliteExecute conn (field qs table "index")] else []).

(** Read first; then, iff the drop flag is set, drop, create and index;
    then one parameterised write per row, in the order of the result set. *)
Definition table_calls (qs : QuerySettings) (conn : handle) (drop : bool)
    (table : string) (rows : list row) : list event :=
  [MysqlExecute (field qs table "read")]
  ++ (if drop then recreate_calls qs conn table else [])
  ++ [MysqlFetchall]
  ++ map (SqliteExecuteParams conn (field qs table "write")) rows.

(** The events of a cleanup in which every call succeeds. *)
Definition cleanup_events (conn : handle) : list event :=
  [Log INFO "Committing transactions ..."; SqliteCommit conn;
   Log INFO "Closing MySQL database connection ..."; MysqlClose;
   Log INFO "Closing SQLite database connection ..."; SqliteClose conn;
   Log INFO "Transactions committed, database connections closed"].

(** A computation that only reads the settings: no event, no change of
    the world. *)
Definition pure {S A} (m : M S A) : Prop :=
  ∀ s, ∃ r, m s = ([], s, r).


(** ** Concrete inputs *)

Module Examples.
Import RefEngine.

Definition settings (fail_on_warnings create_directories : bool)
  : GeneralSettings :=
  {| flags := {[ "fail_on_warnings" := fail_on_warnings;
                 "create_directories" := create_directories ]};
     mysqldb_config :=
       {[ "user" := PyStr "mirror"; "password" := PyStr "secret";
          "host" := PyStr "db.example.org"; "port" := PyStr "3306";
          "database" := PyStr "mailserver";
          "raise_on_warnings" := PyBool true ]};
     sqlitedb_config :=
       {[ "base_dir" := "/var/cache/mysql2sqlite";
          "db_file" := "/var/cache/mysql2sqlite/mailserver.db" ]} |}.

(** A catalog entry without an [index] statement. *)
Definition users : gmap string string :=
  {[ "read" := "SELECT id,name FROM users";
     "new" := "CREATE TABLE users(id INT, name TEXT)";
     "write" := "INSERT INTO users VALUES (?,?)" ]}.

(** A catalog entry with an [index] statement. *)
Definition domains : gmap string string :=
  {[ "read" := "SELECT id,name FROM domains";
     "new" := "CREATE TABLE domains(id INT, name TEXT)";
     "index" := "CREATE INDEX domains_idx ON domains (name)";
     "write" := "INSERT INTO domains VALUES (?,?)" ]}.

(** An entry whose create statement is misspelt. *)
Definition aliases_bad : gmap string string :=
  {[ "read" := "SELECT id,name FROM aliases";
     "new" := "CREATE TABEL aliases(id INT, name TEXT)";
     "write" := "INSERT INTO aliases VALUES (?,?)" ]}.

(** An entry whose write statement takes one value too many. *)
Definition users_bad_write : gmap string string :=
  {[ "read" := "SELECT id,name FROM users";
     "new" := "CREATE TABLE users(id INT, name TEXT)";
     "write" := "INSERT INTO users VALUES (?,?,?)" ]}.

Definition catalog : QuerySettings :=
  {| queries := [("users", users); ("domains", domains)] |}.
Definition catalog_users : QuerySettings :=
  {| queries := [("users", users)] |}.
Definition catalog_bad_schema : QuerySettings :=
  {| queries := [("users", users); ("aliases", aliases_bad)] |}.
Definition catalog_bad_write : QuerySettings :=
  {| queries := [("users", users_bad_write)] |}.
Definition catalog_empty : QuerySettings := {| queries := [] |}.

Definition mysql_tables : gmap string (list row) :=
  {[ "SELECT id,name FROM users" :=
       [[PyInt 1; PyStr "Alice"]; [PyInt 2; PyStr "Bob"]];
     "SELECT id,name FROM domains" := [[PyInt 1; PyStr "example.org"]];
     "SELECT id,name FROM aliases" := [] ]}.

(** The directory exists and is writable; [f] is the database file. *)
Definition world_with (f : option database) : world :=
  {| base_dir := "/var/cache/mysql2sqlite";
     db_file := "/var/cache/mysql2sqlite/mailserver.db";
     dir_exists := true; dir_writable := true; makedirs_allowed := true;
     file := f; file_writable := true; autocommit := false;
     next_handle := 0%nat; pending := ∅; fetched := ∅;
     mysql_up := true; source := mysql_tables; mysql_result := None |}.

(** No database file yet. *)
Definition fresh : world := world_with None.

(** A database file without tables. *)
Definition empty_db : world := world_with (Some ∅).

(** A database file left by an earlier run. *)
Definition stale_db : world :=
  world_with (Some {[ "users" := [[PyInt 9; PyStr "Old"]] ]}).

(** Neither the file nor its directory exists. *)
Definition no_directory : world :=
  set_dir false false (world_with None).




(** The world of a first run once both connections are open. *)
Definition connected : world :=
  state_of (open_connections eng (settings false false) catalog fresh).

End Examples.


(** Every exception a run of [m] can end with satisfies [Q]. *)
Definition raises_only {S A} (Q : exn → Prop) (m : M S A) : Prop :=
  ∀ s e, result_of (m s) = Raise e → Q e.

(** ** The rest of mysql2sqlite_lib.py *)

(** [configparser] with the one conversion [GeneralSettings] asks of it:
    [getboolean section option] answers a boolean or raises. *)
Record BooleanParser := {
  parsed : ConfigParser;
  getboolean : string → string → result bool
}.

(** The keys of [dict(pairs)], in the order Python iterates over them. *)
Definition dict_keys (pairs : list (string * string)) : list string :=
  odict_keys (foldl (λ d p, odict_set p.1 p.2 d) [] pairs).

Section Settings.
Context {S : Type}.

(** [parser.items(section)] *)
Definition parser_items (parser : ConfigParser) (section : string)
  : M S (list (string * string)) :=
  match items parser section with
  | Some pairs => ret pairs
  | None => raise (NoSectionError section)
  end.

(** [parser.getboolean(section, option)] *)
Definition parser_getboolean (parser : BooleanParser)
    (section option : string) : M S bool :=
  match getboolean parser section option with
  | Ok b => ret b
  | Raise e => raise e
  end.

(** [GeneralSettings.__init__] *)
Definition GeneralSettings_init (config_file_list : list string)
    (parser : BooleanParser) : M S GeneralSettings :=
  (match processed_files (parsed parser) with
   | _ :: _ => ret tt
   | [] =>
       log ERROR ("Failure to read config files; " +:+
                  "See provided templates, modify and place in one of the " +:+
                  "supported locations: %s") ;;
       raise OSError
   end) ;;
  try_except
    (flags_items <- parser_items (parsed parser) "flags" ;;
     mysqldb_items <- parser_items (parsed parser) "mysqldb_config" ;;
     sqlitedb_items <- parser_items (parsed parser) "sqlitedb_config" ;;
     raise_on_warnings <-
       parser_getboolean parser "mysqldb_config" "raise_on_warnings" ;;
     let mysqldb_config :=
       <["raise_on_warnings" := PyBool raise_on_warnings]>
         (PyStr <$> py_dict mysqldb_items) in
     flags <- for_acc (dict_keys flags_items) ∅ (λ flags key,
                value <- parser_getboolean parser "flags" key ;;
                ret (<[key := value]> flags)) ;;
     ret {| flags := flags;
            mysqldb_config := mysqldb_config;
            sqlitedb_config := py_dict sqlitedb_items |})
    (λ e, match e with
          | NoSectionError _ =>
              Some (log_exception "Unable to parse config file: %s" ;;
                    raise e)
          | _ => None
          end).

(** [ConsoleFilterFunc.filter]; [settings] is [None] when the filter was
    built without a settings object, and the value returned is [True],
    [False] or (falling off the end) [None]. *)
Definition ConsoleFilterFunc_filter (settings : option GeneralSettings)
    (levelname : string) : M S pyval :=
  match settings with
  | Some settings =>
      error_flag <- getitem (flags settings) "display_console_error_messages" ;;
      if (error_flag : bool) && String.eqb levelname "ERROR"
      then ret (PyBool true) else
      warning_flag <-
        getitem (flags settings) "display_console_warning_messages" ;;
      if (warning_flag : bool) && String.eqb levelname "WARNING"
      then ret (PyBool true) else
      info_flag <- getitem (flags settings) "display_console_info_messages" ;;
      if (info_flag : bool) && String.eqb levelname "INFO"
      then ret (PyBool true) else
      debug_flag <- getitem (flags settings) "display_console_debug_messages" ;;
      if (debug_flag : bool) && String.eqb levelname "DEBUG"
      then ret (PyBool true)
      else ret (PyBool false)
  | None =>
      if String.eqb levelname "ERROR" then ret (PyBool true) else
      if String.eqb levelname "WARNING" then ret (PyBool true) else
      ret PyNone
  end.

End Settings.

Section MoreLibrary.
Context {S : Type} (E : engine S).

(** [file_exists] *)
Definition file_exists (full_path_to_file : string) : M S bool :=
  ask (e_access E full_path_to_file R_OK).

End MoreLibrary.

(** ** More ways of reading a run *)

Definition is_sqlite_connect (ev : event) : bool :=
  match ev with SqliteConnect _ => true | _ => false end.
Definition is_mysql_connect (ev : event) : bool :=
  match ev with MysqlConnect _ => true | _ => false end.
Definition is_mysql_close (ev : event) : bool :=
  match ev with MysqlClose => true | _ => false end.
Definition is_makedirs (ev : event) : bool :=
  match ev with Makedirs _ => true | _ => false end.
Definition is_database_call (ev : event) : bool :=
  match ev with
  | Log _ _ | Makedirs _ => false
  | _ => true
  end.

(** The level names the console filter knows, with their flags. *)
Definition console_flag (levelname : string) : option string :=
  if String.eqb levelname "ERROR"
  then Some "display_console_error_messages"
  else if String.eqb levelname "WARNING"
  then Some "display_console_warning_messages"
  else if String.eqb levelname "INFO"
  then Some "display_console_info_messages"
  else if String.eqb levelname "DEBUG"
  then Some "display_console_debug_messages"
  else None.

(** The script the importer builds for a catalog whose entries all have a
    create statement: per table, in catalog order, the create statement
    and, when there is one, the index statement, each on a line of its
    own and closed by a semicolon. *)
Definition schema_script (qs : QuerySettings) : string :=
  foldl (λ script table,
           (script +:+ schema_line (field qs table "new"))
           +:+ (if has_index qs table
                then schema_line (field qs table "index")
                else EmptyString))
    EmptyString (odict_keys (queries qs)).

(** Every table of the catalog has the option [fld]. *)
Definition all_have (fld : string) (qs : QuerySettings) : Prop :=
  ∀ table, table ∈ odict_keys (queries qs) →
    ∃ entry, odict_get table (queries qs) = Some entry
             ∧ is_Some (entry !! fld).

Module MoreExamples.
Import RefEngine Examples.

Definition console_settings (e w i d : bool) : GeneralSettings :=
  {| flags := {[ "display_console_error_messages" := e;
                 "display_console_warning_messages" := w;
                 "display_console_info_messages" := i;
                 "display_console_debug_messages" := d ]};
     mysqldb_config := ∅; sqlitedb_config := ∅ |}.

(** Python's [value.lower() in BOOLEAN_STATES], for the spellings used
    below.  [exn] lists neither [ValueError] nor [NoOptionError]: in these
    parsers [TypeError] stands for a value that is no boolean and
    [KeyError] for an option that is missing. *)
Definition read_boolean (value : string) : result bool :=
  if String.eqb value "true" then Ok true
  else if String.eqb value "false" then Ok false
  else Raise TypeError.

Definition general_ini (sec : string) : option (list (string * string)) :=
  if String.eqb sec "flags"
  then Some [("fail_on_warnings", "false"); ("create_directories", "true")]
  else if String.eqb sec "mysqldb_config"
  then Some [("user", "mirror"); ("raise_on_warnings", "true")]
  else if String.eqb sec "sqlitedb_config"
  then Some [("base_dir", "/var/cache/mysql2sqlite");
             ("db_file", "/var/cache/mysql2sqlite/mailserver.db")]
  else None.

Definition general_parser : BooleanParser :=
  {| parsed := {| processed_files := ["mysql2sqlite_general.ini"];
                  sections := ["flags"; "mysqldb_config"; "sqlitedb_config"];
                  items := general_ini |};
     getboolean := λ sec opt,
       match general_ini sec with
       | Some pairs =>
           match py_dict pairs !! opt with
           | Some v => read_boolean v
           | None => Raise (KeyError opt)
           end
       | None => Raise (NoSectionError sec)
       end |}.

(** The same file without its [sqlitedb_config] section. *)
Definition parser_without_sqlitedb : BooleanParser :=
  {| parsed := {| processed_files := ["mysql2sqlite_general.ini"];
                  sections := ["flags"; "mysqldb_config"];
                  items := λ sec, if String.eqb sec "sqlitedb_config"
                                  then None else general_ini sec |};
     getboolean := getboolean general_parser |}.

(** The same file with a [raise_on_warnings] that is no boolean. *)
Definition parser_not_boolean : BooleanParser :=
  {| parsed := parsed general_parser;
     getboolean := λ sec opt,
       if String.eqb opt "raise_on_warnings" then Raise TypeError
       else getboolean general_parser sec opt |}.

(** A catalog entry without a [write] statement. *)
Definition users_without_write : gmap string string :=
  {[ "read" := "SELECT id,name FROM users";
     "new" := "CREATE TABLE users(id INT, name TEXT)" ]}.
Definition catalog_without_write : QuerySettings :=
  {| queries := [("users", users_without_write)] |}.

(** A catalog entry without a [new] statement. *)
Definition users_without_new : gmap string string :=
  {[ "read" := "SELECT id,name FROM users";
     "write" := "INSERT INTO users VALUES (?,?)" ]}.
Definition catalog_without_new : QuerySettings :=
  {| queries := [("domains", domains); ("users", users_without_new)] |}.

(** A MySQL server that cannot be reached. *)
Definition mysql_down : world :=
  {| base_dir := base_dir fresh; db_file := db_file fresh;
     dir_exists := true; dir_writable := true; makedirs_allowed := true;
     file := None; file_writable := true; autocommit := false;
     next_handle := 0%nat; pending := ∅; fetched := ∅;
     mysql_up := false; source := mysql_tables; mysql_result := None |}.

(** The directory exists but cannot be written to. *)
Definition read_only_directory : world := set_dir true false fresh.

(** The reference engine on a file that holds no database: connecting
    succeeds, as [sqlite3.connect] reads nothing, and every statement
    fails. *)
Definition not_a_database : engine world :=
  {| e_path_exists := path_exists;
     e_path_isdir := path_isdir;
     e_access := access;
     e_makedirs := makedirs;
     e_mysql_connect := mysql_connect;
     e_mysql_execute := mysql_execute;
     e_mysql_fetchall := mysql_fetchall;
     e_mysql_close := mysql_close;
     e_sqlite_connect := sqlite_connect;
     e_isolation_level := isolation_level;
     e_executescript := λ h script w, (false, w);
     e_execute := λ h sql w, (false, w);
     e_execute_params := λ h sql params w, (false, w);
     e_fetchone := fetchone;
     e_commit := commit;
     e_close := close |}.

End MoreExamples.

(** * Properties *)

(** ** Runs of the monad *)

Section Runs.
Context {S : Type}.

Lemma bind_inv {A B} (m : M S A) (k : A → M S B) s t s' r :
  bind m k s = (t, s', r) →
  (∃ e, m s = (t, s', Raise e) ∧ r = Raise e)
  ∨ (∃ t1 s1 a t2, m s = (t1, s1, Ok a) ∧ k a s1 = (t2, s', r)
                   ∧ t = t1 ++ t2).
Proof.
  unfold bind. destruct (m s) as [[t1 s1] [a|e]].
  - destruct (k a s1) as [[t2 s2] r2] eqn:Hk. intros [= <- <- <-].
    right. by exists t1, s1, a, t2.
  - intros [= <- <- <-]. left. by exists e.
Qed.

Lemma bind_ok {A B} (m : M S A) (k : A → M S B) s t1 s1 a :
  m s = (t1, s1, Ok a) →
  bind m k s = (t1 ++ events_of (k a s1), state_of (k a s1),
                result_of (k a s1)).
Proof.
  intros Hm. unfold bind. rewrite Hm. by destruct (k a s1) as [[? ?] ?].
Qed.

Lemma bind_raise {A B} (m : M S A) (k : A → M S B) s t1 s1 e :
  m s = (t1, s1, Raise e) → bind m k s = (t1, s1, Raise e).
Proof. intros Hm. unfold bind. by rewrite Hm. Qed.

Lemma emits_ret {A} P (a : A) : emits (S:=S) P (ret a).
Proof. intros s. constructor. Qed.

Lemma emits_raise {A} P e : emits (S:=S) P (raise (A := A) e).
Proof. intros s. constructor. Qed.

Lemma emits_ask {A} P (f : S → A) : emits (S:=S) P (ask f).
Proof. intros s. constructor. Qed.

Lemma emits_emit P ev : P ev → emits (S:=S) P (emit ev).
Proof. intros H s. by repeat constructor. Qed.

Lemma emits_call P ev op e : P ev → emits (S:=S) P (call ev op e).
Proof.
  intros H s. unfold call, events_of.
  destruct (op s) as [[] ?]; by repeat constructor.
Qed.

Lemma emits_call_val {A} P ev (op : S → option A * S) e :
  P ev → emits (S:=S) P (call_val ev op e).
Proof.
  intros H s. unfold call_val, events_of.
  destruct (op s) as [[] ?]; by repeat constructor.
Qed.

Lemma emits_bind {A B} P (m : M S A) (k : A → M S B) :
  emits (S:=S) P m → (∀ a, emits (S:=S) P (k a)) → emits (S:=S) P (bind m k).
Proof.
  intros Hm Hk s. specialize (Hm s). unfold bind, events_of in *.
  destruct (m s) as [[t1 s1] [a|e]]; simpl in *; [|done].
  specialize (Hk a s1). unfold events_of in Hk.
  destruct (k a s1) as [[t2 s2] r2]. simpl in *. by apply Forall_app.
Qed.

Lemma emits_try_except {A} P (m : M S A) h :
  emits (S:=S) P m → (∀ e k, h e = Some k → emits (S:=S) P k) → emits (S:=S) P (try_except m h).
Proof.
  intros Hm Hh s. specialize (Hm s). unfold try_except, events_of in *.
  destruct (m s) as [[t1 s1] [a|e]]; simpl in *; [done|].
  destruct (h e) as [k|] eqn:He; [|done].
  specialize (Hh e k He s1). unfold events_of in Hh.
  destruct (k s1) as [[t2 s2] r2]. simpl in *. by apply Forall_app.
Qed.

Lemma emits_try_except_else {A} P (m : M S A) h e' :
  emits (S:=S) P m → (∀ e k, h e = Some k → emits (S:=S) P k) → emits (S:=S) P e' →
  emits (S:=S) P (try_except_else m h e').
Proof.
  intros Hm Hh He' s. specialize (Hm s).
  unfold try_except_else, events_of in *.
  destruct (m s) as [[t1 s1] [a|e]]; simpl in *.
  - specialize (He' s1). unfold events_of in He'.
    destruct (e' s1) as [[t2 s2] [|]]; simpl in *; by apply Forall_app.
  - destruct (h e) as [k|] eqn:He; [|done].
    specialize (Hh e k He s1). unfold events_of in Hh.
    destruct (k s1) as [[t2 s2] r2]. simpl in *. by apply Forall_app.
Qed.

Lemma emits_getitem {V} P (d : gmap string V) k : emits (S:=S) P (getitem d k).
Proof. unfold getitem. destruct (d !! k); [apply emits_ret|apply emits_raise]. Qed.

Lemma emits_odict_getitem {V} P (d : odict V) k : emits (S:=S) P (odict_getitem d k).
Proof.
  unfold odict_getitem.
  destruct (odict_get k d); [apply emits_ret|apply emits_raise].
Qed.

Lemma emits_for_each {X} P (xs : list X) body :
  (∀ x, emits (S:=S) P (body x)) → emits (S:=S) P (for_each xs body).
Proof.
  intros Hb. induction xs as [|x xs IH]; simpl.
  - apply emits_ret.
  - apply emits_bind; [apply Hb|]. intros _. apply IH.
Qed.

Lemma emits_for_acc {X A} P (xs : list X) (acc : A) body :
  (∀ a x, emits (S:=S) P (body a x)) → emits (S:=S) P (for_acc xs acc body).
Proof.
  intros Hb. revert acc. induction xs as [|x xs IH]; intros acc; simpl.
  - apply emits_ret.
  - apply emits_bind; [apply Hb|]. intros a. apply IH.
Qed.

Lemma emits_run {A} P (m : M S A) s t s' r :
  emits (S:=S) P m → m s = (t, s', r) → Forall P t.
Proof. intros Hm Hs. specialize (Hm s). by rewrite Hs in Hm. Qed.

Lemma events_bind {A B} (m : M S A) (k : A → M S B) s :
  events_of (bind m k s)
  = events_of (m s)
    ++ match result_of (m s) with
       | Ok a => events_of (k a (state_of (m s)))
       | Raise _ => []
       end.
Proof.
  unfold bind, events_of, result_of, state_of.
  destruct (m s) as [[t1 s1] [a|e]]; simpl; [|by rewrite app_nil_r].
  by destruct (k a s1) as [[t2 s2] r].
Qed.

Lemma emits_and {A} (P Q : event → Prop) (m : M S A) :
  emits P m → emits Q m → emits (λ ev, P ev ∧ Q ev) m.
Proof. intros H1 H2 s. apply Forall_and. split; [apply H1|apply H2]. Qed.

End Runs.

Lemma count_app p t1 t2 : count p (t1 ++ t2) = (count p t1 + count p t2)%nat.
Proof. induction t1 as [|ev t1 IH]; simpl; [done|]. rewrite IH. lia. Qed.

Lemma count_none p t : Forall (λ ev, p ev = false) t → count p t = 0%nat.
Proof. induction 1 as [|ev t Hev _ IH]; simpl; [done|]. by rewrite Hev, IH. Qed.

Lemma calls_app t1 t2 : calls (t1 ++ t2) = calls t1 ++ calls t2.
Proof.
  induction t1 as [|ev t1 IH]; simpl; [done|].
  destruct (is_log ev); simpl; by rewrite IH.
Qed.

(** Breaks an [emits] goal down along the structure of the program. *)
Ltac emits_step :=
  lazymatch goal with
  | |- emits _ (bind _ _) => apply emits_bind; [|intros ?]
  | |- emits _ (ret _) => apply emits_ret
  | |- emits _ (raise _) => apply emits_raise
  | |- emits _ (sys_exit _) => apply emits_raise
  | |- emits _ (ask _) => apply emits_ask
  | |- emits _ (getitem _ _) => apply emits_getitem
  | |- emits _ (odict_getitem _ _) => apply emits_odict_getitem
  | |- emits _ (log _ _) => apply emits_emit
  | |- emits _ (log_exception _) => apply emits_emit
  | |- emits _ (emit _) => apply emits_emit
  | |- emits _ (call _ _ _) => apply emits_call
  | |- emits _ (call_val _ _ _) => apply emits_call_val
  | |- emits _ (try_except _ _) =>
      apply emits_try_except;
      [|let e := fresh "e" in let k := fresh "k" in let H := fresh "H" in
        intros e k H; destruct e; simpl in H; simplify_eq]
  | |- emits _ (try_except_else _ _ _) =>
      apply emits_try_except_else;
      [|let e := fresh "e" in let k := fresh "k" in let H := fresh "H" in
        intros e k H; destruct e; simpl in H; simplify_eq|]
  | |- emits _ (for_each _ _) => apply emits_for_each; intros ?
  | |- emits _ (for_acc _ _ _) => apply emits_for_acc; intros ? ?
  | |- emits _ (if ?b then _ else _) => destruct b
  | |- emits _ (match ?x with _ => _ end) => destruct x
  | |- emits _ (let _ := _ in _) => cbv zeta
  end.

Ltac emits := repeat emits_step; try first [done | vm_compute; reflexivity].

(** ** Which events each part of the script can emit *)

Section Emits.
Context {S : Type} (E : engine S) (p : event → bool).
Hypothesis p_error : ∀ msg, p (Log ERROR msg) = false.
Hypothesis p_warning : ∀ msg, p (Log WARNING msg) = false.
Hypothesis p_info : ∀ msg, msg ≠ import_started → p (Log INFO msg) = false.

Local Ltac quiet :=
  emits;
  first [ apply p_error | apply p_warning
        | apply p_info; vm_compute; discriminate | auto ].

Lemma probe_emits path :
  (∀ h sql, p (SqliteExecute h sql) = false) →
  (∀ h, p (SqliteFetchone h) = false) →
  (∀ d, p (SqliteConnect d) = false) →
  emits (λ ev, p ev = false) (sqlite_db_has_tables E path).
Proof. intros H1 H2 H3. unfold sqlite_db_has_tables. quiet. Qed.

Lemma open_connections_emits gs qs :
  (∀ d, p (Makedirs d) = false) → (∀ kw, p (MysqlConnect kw) = false) →
  (∀ d, p (SqliteConnect d) = false) →
  emits (λ ev, p ev = false) (open_connections E gs qs).
Proof.
  intros H2 H3 H4.
  unfold open_connections, open_db_connection, verify_sqlite_storage,
    file_can_be_modified, dir_can_be_modified.
  quiet.
Qed.

Lemma check_autocommit_emits gs conn :
  emits (λ ev, p ev = false) (check_autocommit E gs conn).
Proof. unfold check_autocommit. quiet. Qed.

Lemma decide_drop_tables_emits gs :
  (∀ h sql, p (SqliteExecute h sql) = false) →
  (∀ h, p (SqliteFetchone h) = false) →
  (∀ d, p (SqliteConnect d) = false) →
  emits (λ ev, p ev = false) (decide_drop_tables E gs).
Proof.
  intros H1 H2 H3. unfold decide_drop_tables.
  emits_step; [quiet|]. emits_step; [quiet|].
  emits_step; [by apply probe_emits|]. quiet.
Qed.

Lemma recreate_table_emits qs conn table :
  (∀ h sql, p (SqliteExecute h sql) = false) →
  emits (λ ev, p ev = false) (recreate_table E qs conn table).
Proof. intros H1. unfold recreate_table, index_defined, query. quiet. Qed.

Lemma mirror_table_emits qs conn drop table :
  (∀ h sql, p (SqliteExecute h sql) = false) →
  (∀ sql, p (MysqlExecute sql) = false) → p MysqlFetchall = false →
  (∀ h sql r, p (SqliteExecuteParams h sql r) = false) →
  emits (λ ev, p ev = false) (mirror_table E qs conn drop table).
Proof.
  intros H1 H2 H3 H4. unfold mirror_table.
  emits_step; [unfold query; quiet|]. emits_step; [quiet|].
  emits_step; [destruct drop; [by apply recreate_table_emits|quiet]|].
  unfold write_row, query. quiet.
Qed.

Lemma mirror_tables_emits qs conn drop :
  (∀ h sql, p (SqliteExecute h sql) = false) →
  (∀ sql, p (MysqlExecute sql) = false) → p MysqlFetchall = false →
  (∀ h sql r, p (SqliteExecuteParams h sql r) = false) →
  emits (λ ev, p ev = false) (mirror_tables E qs conn drop).
Proof.
  intros H1 H2 H3 H4. unfold mirror_tables.
  apply emits_for_each. intros table. by apply mirror_table_emits.
Qed.

Lemma cleanup_emits conn :
  (∀ h, p (SqliteCommit h) = false) → p MysqlClose = false →
  (∀ h, p (SqliteClose h) = false) →
  emits (λ ev, p ev = false) (cleanup E conn).
Proof. intros H1 H2 H3. unfold cleanup. quiet. Qed.

End Emits.

(** Splits the run of the first [bind] in the goal on its outcome. *)
Tactic Notation "stage" ident(H) "as" ident(t) ident(s') ident(a) :=
  match goal with
  | |- context [bind ?m ?k ?s] =>
      let e := fresh "e" in
      destruct (m s) as [[t s'] [a|e]] eqn:H;
      [ rewrite (bind_ok m k s _ _ _ H)
      | rewrite (bind_raise m k s _ _ _ H) ];
      unfold events_of, state_of, result_of; cbn [fst snd]
  end.

(** ** The commit *)

Section Commit.
Context {S : Type} (E : engine S).

Lemma no_commit_before_cleanup gs qs :
  emits (λ ev, is_commit ev = false) (open_connections E gs qs)
  ∧ (∀ is_new conn,
       emits (λ ev, is_commit ev = false) (prepare_schema E gs qs is_new conn))
  ∧ (∀ conn, emits (λ ev, is_commit ev = false) (check_autocommit E gs conn))
  ∧ emits (λ ev, is_commit ev = false) (decide_drop_tables E gs)
  ∧ (∀ conn drop,
       emits (λ ev, is_commit ev = false) (mirror_tables E qs conn drop)).
Proof.
  split_and!; intros.
  - by apply open_connections_emits.
  - unfold prepare_schema, import_sqlite_db_schema, schema_step,
      index_defined, query.
    emits; by apply probe_emits.
  - by apply check_autocommit_emits.
  - by apply decide_drop_tables_emits.
  - by apply mirror_tables_emits.
Qed.

Lemma cleanup_run conn s :
  count is_commit (events_of (cleanup E conn s)) = 1%nat
  ∧ ¬ fatal (result_of (cleanup E conn s))
  ∧ (result_of (cleanup E conn s) = Ok tt →
     events_of (cleanup E conn s) = cleanup_events conn).
Proof.
  unfold cleanup, bind, call, log, emit, events_of, result_of, fatal.
  destruct (e_commit E conn s) as [[] s1]; simpl;
    [|split_and!; [done|by intros [? ?]|done]].
  destruct (e_mysql_close E s1) as [[] s2]; simpl;
    [|split_and!; [done|by intros [? ?]|done]].
  destruct (e_close E conn s2) as [[] s3]; simpl;
    split_and!; try done; by intros [? ?].
Qed.

(** A run either stops before the cleanup, having committed nothing, or
    gets through the whole table loop and enters the cleanup. *)
Lemma main_shape gs qs s :
  (count is_commit (events_of (main E gs qs s)) = 0%nat
   ∧ ∃ e, result_of (main E gs qs s) = Raise e)
  ∨ (∃ pre conn drop s1 loop s2,
       mirror_tables E qs conn drop s1 = (loop, s2, Ok tt)
       ∧ events_of (main E gs qs s)
         = pre ++ loop ++ events_of (cleanup E conn s2)
       ∧ result_of (main E gs qs s) = result_of (cleanup E conn s2)
       ∧ count is_commit (pre ++ loop) = 0%nat).
Proof.
  destruct (no_commit_before_cleanup gs qs) as (N0 & N1 & N2 & N3 & N4).
  unfold main.
  stage H0 as t0 s0 opened; [|left; split; [|by eexists];
    apply count_none, (emits_run _ _ _ _ _ _ N0 H0)].
  destruct opened as [is_new conn]. unfold mirror_run.
  pose proof (emits_run _ _ _ _ _ _ N0 H0) as F0.
  stage H1 as t1 s1 imported; [|left; split; [|by eexists];
    rewrite count_app, (count_none _ _ F0);
    apply count_none, (emits_run _ _ _ _ _ _ (N1 _ _) H1)].
  pose proof (emits_run _ _ _ _ _ _ (N1 _ _) H1) as F1.
  stage H2 as t2 s2 u; [|left; split; [|by eexists];
    rewrite !count_app, (count_none _ _ F0), (count_none _ _ F1);
    apply count_none, (emits_run _ _ _ _ _ _ (N2 _) H2)].
  pose proof (emits_run _ _ _ _ _ _ (N2 _) H2) as F2.
  stage H3 as t3 s3 drop; [|left; split; [|by eexists];
    rewrite !count_app, (count_none _ _ F0), (count_none _ _ F1),
      (count_none _ _ F2);
    apply count_none, (emits_run _ _ _ _ _ _ N3 H3)].
  pose proof (emits_run _ _ _ _ _ _ N3 H3) as F3.
  stage H4 as t4 s4 u'; [|left; split; [|by eexists];
    rewrite !count_app, (count_none _ _ F0), (count_none _ _ F1),
      (count_none _ _ F2), (count_none _ _ F3);
    apply count_none, (emits_run _ _ _ _ _ _ (N4 _ _) H4)].
  pose proof (emits_run _ _ _ _ _ _ (N4 _ _) H4) as F4.
  right. destruct u'. exists (t0 ++ t1 ++ t2 ++ t3), conn, drop, s3, t4, s4.
  split_and!; [done| |done|].
  - by rewrite <- !app_assoc.
  - rewrite !count_app, (count_none _ _ F0), (count_none _ _ F1),
      (count_none _ _ F2), (count_none _ _ F3), (count_none _ _ F4). done.
Qed.

End Commit.

(** ** Pure parts: dictionary look-ups and the schema script *)

Section Pure.
Context {S : Type}.

Lemma pure_ret {A} (a : A) : pure (S:=S) (ret a).
Proof. intros s. by eexists. Qed.

Lemma pure_raise {A} e : pure (S:=S) (raise (A := A) e).
Proof. intros s. by eexists. Qed.

Lemma pure_bind {A B} (m : M S A) (k : A → M S B) :
  pure m → (∀ a, pure (k a)) → pure (S:=S) (bind m k).
Proof.
  intros Hm Hk s. destruct (Hm s) as [[a|e] Hr]; unfold bind; rewrite Hr.
  - destruct (Hk a s) as [r Hr']. rewrite Hr'. by eexists.
  - by eexists.
Qed.

Lemma pure_getitem {V} (d : gmap string V) k : pure (S:=S) (getitem d k).
Proof. unfold getitem. destruct (d !! k); [apply pure_ret|apply pure_raise]. Qed.

Lemma pure_odict_getitem {V} (d : odict V) k : pure (S:=S) (odict_getitem d k).
Proof.
  unfold odict_getitem.
  destruct (odict_get k d); [apply pure_ret|apply pure_raise].
Qed.

Lemma pure_query qs table field : pure (query (S:=S) qs table field).
Proof.
  unfold query. apply pure_bind; [apply pure_odict_getitem|].
  intros. apply pure_getitem.
Qed.

Lemma pure_index_defined qs table : pure (index_defined (S:=S) qs table).
Proof.
  unfold index_defined. apply pure_bind; [apply pure_odict_getitem|].
  intros entry. destruct (entry !! "index"); [|apply pure_ret].
  apply pure_bind; [apply pure_query|]. intros. apply pure_ret.
Qed.

Lemma pure_schema_step qs acc table : pure (schema_step (S:=S) qs acc table).
Proof.
  unfold schema_step. apply pure_bind; [apply pure_query|]. intros new.
  apply pure_bind; [apply pure_index_defined|]. intros [].
  - apply pure_bind; [apply pure_query|]. intros. apply pure_ret.
  - apply pure_ret.
Qed.

Lemma pure_for_acc {X A} (xs : list X) (acc : A) body :
  (∀ a x, pure (body a x)) → pure (for_acc (S:=S) xs acc body).
Proof.
  intros Hb. revert acc. induction xs as [|x xs IH]; intros acc; simpl.
  - apply pure_ret.
  - apply pure_bind; [apply Hb|]. intros. apply IH.
Qed.

Lemma pure_schema qs :
  pure (for_acc (S:=S) (odict_keys (queries qs)) EmptyString (schema_step qs)).
Proof. apply pure_for_acc. intros. apply pure_schema_step. Qed.

End Pure.

Section Failures.
Context {S : Type} (E : engine S).

Lemma import_run conn gs qs s script :
  for_acc (odict_keys (queries qs)) EmptyString (schema_step qs) s
    = ([], s, Ok script) →
  import_sqlite_db_schema E conn gs qs s
  = match e_executescript E conn script s with
    | (true, s') =>
        ([Log INFO import_started; SqliteExecutescript conn script;
          Log INFO "Created database with imported schema ..."], s', Ok tt)
    | (false, s') =>
        ([Log INFO import_started; SqliteExecutescript conn script;
          Log ERROR "Failed to create schema: %s"], s',
         Raise (SystemExit (ExitStatus 1)))
    end.
Proof.
  intros Hs. unfold import_sqlite_db_schema.
  unfold bind at 1. unfold log, emit. unfold bind at 1. rewrite Hs.
  unfold try_except_else, call, on_sqlite_error, log_exception, sys_exit,
    bind, emit, raise.
  by destruct (e_executescript E conn script s) as [[] s'].
Qed.

Lemma write_row_run qs conn table r s write :
  query qs table "write" s = ([], s, Ok write) →
  write_row E qs conn table r s
  = match e_execute_params E conn write r s with
    | (true, s') => ([SqliteExecuteParams conn write r], s', Ok tt)
    | (false, s') =>
        ([SqliteExecuteParams conn write r;
          Log ERROR "Failed to write entries to %s SQLite table: %s";
          Log ERROR error_object], s', Raise (SystemExit (ExitStatus 1)))
    end.
Proof.
  intros Hq. unfold write_row, try_except. unfold bind at 1. rewrite Hq.
  unfold call, log_exception, sys_exit, bind, emit, raise.
  by destruct (e_execute_params E conn write r s) as [[] s'].
Qed.

End Failures.

(** ** The calls of one table *)

Section TableCalls.
Context {S : Type} (E : engine S).

Lemma write_rows_calls qs conn table rows s t s' r :
  for_each rows (write_row E qs conn table) s = (t, s', r) →
  calls t `prefix_of`
    map (SqliteExecuteParams conn (field qs table "write")) rows
  ∧ (r = Ok tt →
     calls t = map (SqliteExecuteParams conn (field qs table "write")) rows).
Proof.
  revert s t s' r. induction rows as [|x rows IH]; intros s t s' r; simpl.
  - intros [= <- <- <-]. split; [apply prefix_nil|done].
  - intros H. apply bind_inv in H as [(e & H & ->)|(t1 & s1 & [] & t2 & H & H2 & ->)].
    + split; [|done]. revert H.
      unfold write_row, try_except, query, odict_getitem, getitem, bind, call,
        log_exception, sys_exit, emit, raise, ret, field.
      destruct (odict_get table (queries qs)) as [entry|]; simpl;
        [|intros [= <- <- <-]; apply prefix_nil].
      destruct (entry !! "write") as [write|]; simpl;
        [|intros [= <- <- <-]; apply prefix_nil].
      destruct (e_execute_params E conn write x s) as [[] s2]; simpl;
        intros [= <- <- <-]; simpl.
      apply prefix_cons, prefix_nil.
    + apply IH in H2 as [IH1 IH2].
      assert (calls t1 = [SqliteExecuteParams conn (field qs table "write") x])
        as Ht1.
      { revert H.
        unfold write_row, try_except, query, odict_getitem, getitem, bind,
          call, log_exception, sys_exit, emit, raise, ret, field.
        destruct (odict_get table (queries qs)) as [entry|]; simpl; [|done].
        destruct (entry !! "write") as [write|]; simpl; [|done].
        destruct (e_execute_params E conn write x s) as [[] s2]; simpl;
          by intros [= <- <-]. }
      rewrite calls_app, Ht1. simpl. split.
      * by apply prefix_cons.
      * intros Hr. by rewrite IH2.
Qed.

Lemma recreate_table_calls qs conn table s t s' r :
  recreate_table E qs conn table s = (t, s', r) →
  calls t `prefix_of` recreate_calls qs conn table
  ∧ (r = Ok tt → calls t = recreate_calls qs conn table).
Proof.
  unfold recreate_table, recreate_calls, index_defined, try_except, query,
    odict_getitem, getitem, on_sqlite_error, bind, call, log, log_exception,
    sys_exit, emit, raise, ret, field, has_index, is_not_None.
  destruct (e_execute E conn (drop_table_sql table) s) as [[] s1]; simpl;
    [|intros [= <- <- <-]; split; [by eexists|done]].
  destruct (odict_get table (queries qs)) as [entry|]; simpl;
    [|intros [= <- <- <-]; split; [by eexists|done]].
  destruct (entry !! "new") as [new|]; simpl;
    [|intros [= <- <- <-]; split; [by eexists|done]].
  destruct (e_execute E conn new s1) as [[] s2]; simpl;
    [|intros [= <- <- <-]; split; [by eexists|done]].
  destruct (entry !! "index") as [index|]; simpl;
    [|intros [= <- <- <-]; split; [by eexists|done]].
  destruct (e_execute E conn index s2) as [[] s3]; simpl;
    intros [= <- <- <-]; split; by try eexists.
Qed.

Lemma mirror_table_calls qs conn drop table s t s' r :
  mirror_table E qs conn drop table s = (t, s', r) →
  ∃ rows,
    calls t `prefix_of` table_calls qs conn drop table rows
    ∧ (r = Ok tt →
       calls t = table_calls qs conn drop table rows
       ∧ ∃ sa sb, e_mysql_fetchall E sa = (Some rows, sb)).
Proof.
  unfold mirror_table, table_calls. intros H.
  apply bind_inv in H as [(e & H & ->)|(t1 & s1 & read & ta & H & H' & ->)].
  { exists []. split; [|done]. revert H.
    unfold query, odict_getitem, getitem, bind, raise, ret.
    destruct (odict_get table (queries qs)) as [entry|]; simpl;
      [|intros [= <- <-]; apply prefix_nil].
    destruct (entry !! "read"); intros [= <- <-]. apply prefix_nil. }
  assert (t1 = [] ∧ read = field qs table "read") as [-> ->].
  { revert H. unfold query, odict_getitem, getitem, bind, raise, ret, field.
    destruct (odict_get table (queries qs)) as [entry|]; simpl; [|done].
    destruct (entry !! "read"); by intros [= <- <-]. }
  clear H. simpl. rename H' into H.
  apply bind_inv in H as [(e & H & ->)|(t1 & s2 & [] & tb & H & H' & ->)].
  { exists []. split; [|done]. revert H. unfold call.
    destruct (e_mysql_execute E (field qs table "read") s1) as [[] ?];
      intros [= <- <-]. simpl. apply prefix_cons, prefix_nil. }
  assert (t1 = [MysqlExecute (field qs table "read")]) as ->.
  { revert H. unfold call.
    by destruct (e_mysql_execute E (field qs table "read") s1) as [[] ?];
      intros [= <- <-]. }
  clear H. rename H' into H. simpl.
  apply bind_inv in H as [(e & H & ->)|(t1 & s3 & [] & tc & H & H' & ->)].
  { exists []. split; [|done]. apply prefix_cons.
    destruct drop; [|by inversion H].
    apply recreate_table_calls in H as [H _]. by apply prefix_app_r. }
  assert (calls t1 = if drop then recreate_calls qs conn table else [])
    as Hrec.
  { destruct drop; [|by inversion H].
    apply recreate_table_calls in H as [_ H]. by apply H. }
  clear H. rename H' into H. rewrite calls_app, Hrec.
  apply bind_inv in H as [(e & H & ->)|(t2 & s4 & [] & td & H & H' & ->)];
    [by inversion H|].
  injection H as <- <-. simpl. clear Hrec.
  apply bind_inv in H' as [(e & H & ->)|(t2 & s5 & rows & te & H & H' & ->)].
  { exists []. split; [|done]. apply prefix_cons, prefix_app. revert H.
    unfold call_val. destruct (e_mysql_fetchall E s3) as [[?|] ?];
      intros [= <- <-]. simpl. apply prefix_cons, prefix_nil. }
  exists rows.
  assert (t2 = [MysqlFetchall] ∧ e_mysql_fetchall E s3 = (Some rows, s5))
    as [-> Hf].
  { revert H. unfold call_val. destruct (e_mysql_fetchall E s3) as [[?|] ?];
      by intros [= <- <- <-]. }
  clear H. rename H' into H. simpl.
  apply bind_inv in H as [(e & H & ->)|(t2 & s6 & [] & tf & H & H' & ->)];
    [by inversion H|].
  injection H as <- <-. simpl.
  apply bind_inv in H' as [(e & H & ->)|(t2 & s7 & [] & tg & H & H' & ->)].
  { split; [|done]. apply write_rows_calls in H as [H _].
    by apply prefix_cons, prefix_app, prefix_cons. }
  apply write_rows_calls in H as [_ H]. injection H' as <- <- <-.
  rewrite calls_app, H by done. simpl. rewrite app_nil_r.
  split; [done|]. intros _. split; [done|]. by exists s3, s5.
Qed.


End TableCalls.

(** ** The schema import *)

Section SchemaImport.
Context {S : Type} (E : engine S).

Lemma import_start_info msg :
  msg ≠ import_started → is_import_start (Log INFO msg) = false.
Proof. intros H. simpl. by apply String.eqb_neq. Qed.

(** The importer announces itself first; nothing it does afterwards is a
    second announcement or a row write, and it runs at most one script. *)
Lemma import_events conn gs qs s :
  ∃ rest,
    events_of (import_sqlite_db_schema E conn gs qs s)
      = Log INFO import_started :: rest
    ∧ count is_import_start rest = 0%nat
    ∧ count is_row_write rest = 0%nat
    ∧ (count is_script rest ≤ 1)%nat.
Proof.
  destruct (pure_schema qs s) as [[script|e] Hs].
  - rewrite (import_run E conn gs qs s script Hs).
    destruct (e_executescript E conn script s) as [[] s'];
      eexists; split_and!; try reflexivity; simpl; lia.
  - unfold import_sqlite_db_schema. unfold bind at 1. unfold log, emit.
    rewrite (bind_raise _ _ _ _ _ _ Hs). simpl. eexists. split; [done|].
    simpl. lia.
Qed.

Lemma prepare_schema_run gs qs is_new conn db s1 t1 s2 has :
  sqlitedb_config gs !! "db_file" = Some db →
  sqlite_db_has_tables E db s1 = (t1, s2, Ok has) →
  events_of (prepare_schema E gs qs is_new conn s1)
  = if is_new || negb has
    then t1 ++ Log INFO
                 "%s database file is new or is missing tables; importing schema."
            :: events_of (import_sqlite_db_schema E conn gs qs s2)
    else t1 ++ [Log INFO
                  "%s database file exists and has tables; skipping schema import"].
Proof.
  intros Hdb Hp. unfold prepare_schema, getitem. rewrite Hdb.
  unfold bind at 1. unfold ret at 1. unfold bind at 1. rewrite Hp.
  destruct (is_new || negb has).
  - unfold bind, ret, log, emit, events_of.
    destruct (import_sqlite_db_schema E conn gs qs s2) as [[t3 s3] [[]|e]];
      simpl; by rewrite ?app_nil_r.
  - by unfold bind, ret, log, emit, events_of.
Qed.

(** What follows the schema step of a run never starts an import, and
    what precedes the table loop never writes a row. *)
Lemma no_import_after_schema gs qs conn :
  emits (λ ev, is_import_start ev = false ∧ is_script ev = false)
    (check_autocommit E gs conn ;;
     DROP_TABLES <- decide_drop_tables E gs ;;
     mirror_tables E qs conn DROP_TABLES ;;
     cleanup E conn).
Proof.
  apply emits_bind; [|intros _; apply emits_bind; [|intros drop;
    apply emits_bind; [|intros _]]].
  - apply emits_and; apply check_autocommit_emits;
      first [done | apply import_start_info].
  - apply emits_and; apply decide_drop_tables_emits;
      first [done | apply import_start_info].
  - apply emits_and; apply mirror_tables_emits;
      first [done | apply import_start_info].
  - apply emits_and; apply cleanup_emits;
      first [done | apply import_start_info].
Qed.

Lemma no_row_write_before_loop gs qs path :
  emits (λ ev, is_row_write ev = false) (open_connections E gs qs)
  ∧ emits (λ ev, is_row_write ev = false) (sqlite_db_has_tables E path).
Proof.
  split; [by apply open_connections_emits|by apply probe_emits].
Qed.

Lemma no_import_before_schema gs qs path :
  emits (λ ev, is_import_start ev = false ∧ is_script ev = false)
    (open_connections E gs qs)
  ∧ emits (λ ev, is_import_start ev = false ∧ is_script ev = false)
      (sqlite_db_has_tables E path).
Proof.
  split; apply emits_and;
    first [apply open_connections_emits | apply probe_emits];
    first [done | apply import_start_info].
Qed.

End SchemaImport.

(** ** The autocommit check and the storage check *)

Section Checks.
Context {S : Type} (E : engine S).


Lemma check_autocommit_disabled gs conn s level :
  e_isolation_level E conn s = Some level →
  count is_warning (events_of (check_autocommit E gs conn s)) = 0%nat
  ∧ result_of (check_autocommit E gs conn s) = Ok tt.
Proof.
  intros Hl. unfold check_autocommit, ask, bind. by rewrite Hl.
Qed.

End Checks.

(** ** Ordered dictionaries and the query catalog *)

Section Catalog.
Context {S : Type}.


Lemma odict_get_None {V} k (d : odict V) :
  odict_get k d = None ↔ k ∉ odict_keys d.
Proof.
  unfold odict_keys. induction d as [|[k0 v0] d IH].
  - split; [intros _; apply not_elem_of_nil|done].
  - rewrite fmap_cons, not_elem_of_cons. cbn [odict_get fst].
    destruct (decide (k = k0)) as [->|Hne].
    + split; [done|]. by intros [? _].
    + rewrite IH. split; [done|]. by intros [_ ?].
Qed.





End Catalog.

(** ** Which exceptions a computation can end with *)

Section Raises.
Context {S : Type}.

Lemma raises_ret {A} Q (a : A) : raises_only (S:=S) Q (ret a).
Proof. by intros s e. Qed.

Lemma raises_raise {A} (Q : exn → Prop) e :
  Q e → raises_only (S:=S) Q (raise (A:=A) e).
Proof. intros H s e' [= <-]. done. Qed.

Lemma raises_emit Q ev : raises_only (S:=S) Q (emit ev).
Proof. by intros s e. Qed.

Lemma raises_ask {A} Q (f : S → A) : raises_only Q (ask f).
Proof. by intros s e. Qed.

Lemma raises_call (Q : exn → Prop) ev (op : S → bool * S) e :
  Q e → raises_only Q (call ev op e).
Proof.
  intros H s e'. unfold call, result_of. destruct (op s) as [[] ?]; simpl;
    [done|by intros [= <-]].
Qed.

Lemma raises_call_val {A} (Q : exn → Prop) ev (op : S → option A * S) e :
  Q e → raises_only Q (call_val ev op e).
Proof.
  intros H s e'. unfold call_val, result_of.
  destruct (op s) as [[] ?]; simpl; [done|by intros [= <-]].
Qed.

Lemma raises_bind {A B} Q (m : M S A) (k : A → M S B) :
  raises_only Q m → (∀ a, raises_only Q (k a)) → raises_only Q (bind m k).
Proof.
  intros Hm Hk s e. specialize (Hm s). unfold bind, result_of in *.
  destruct (m s) as [[t1 s1] [a|e1]]; simpl in *.
  - specialize (Hk a s1 e). unfold result_of in Hk.
    by destruct (k a s1) as [[t2 s2] r2].
  - intros [= <-]. by apply Hm.
Qed.

Lemma raises_try_except {A} (Q Qm : exn → Prop) (m : M S A) h :
  raises_only Qm m →
  (∀ e, Qm e → h e = None → Q e) →
  (∀ e k, h e = Some k → raises_only Q k) →
  raises_only Q (try_except m h).
Proof.
  intros Hm Hn Hh s e. specialize (Hm s). unfold try_except, result_of in *.
  destruct (m s) as [[t1 s1] [a|e1]]; simpl in *; [done|].
  destruct (h e1) as [k|] eqn:He.
  - specialize (Hh e1 k He s1 e). unfold result_of in Hh.
    by destruct (k s1) as [[t2 s2] r2].
  - intros [= <-]. apply Hn; [by apply Hm|done].
Qed.

Lemma raises_getitem {V} (Q : exn → Prop) (d : gmap string V) k :
  Q (KeyError k) → raises_only (S:=S) Q (getitem d k).
Proof.
  intros H. unfold getitem.
  destruct (d !! k); [apply raises_ret|by apply raises_raise].
Qed.

Lemma raises_for_each {X} Q (xs : list X) body :
  (∀ x, raises_only (S:=S) Q (body x)) → raises_only Q (for_each xs body).
Proof.
  intros Hb. induction xs as [|x xs IH]; simpl.
  - apply raises_ret.
  - apply raises_bind; [apply Hb|]. intros _. apply IH.
Qed.

End Raises.

Section IndexAbsent.
Context {S : Type} (E : engine S).

(** With no [index] option in the entry, the index test is false and
    looks nothing else up. *)
Lemma index_defined_absent qs table entry (s : S) :
  odict_get table (queries qs) = Some entry → entry !! "index" = None →
  index_defined qs table s = ([], s, Ok false).
Proof.
  intros Hq Hi. unfold index_defined, odict_getitem, bind, ret.
  by rewrite Hq, Hi.
Qed.

Lemma has_index_absent qs table entry :
  odict_get table (queries qs) = Some entry → entry !! "index" = None →
  has_index qs table = false.
Proof. intros Hq Hi. unfold has_index. by rewrite Hq, Hi. Qed.

Lemma mirror_table_no_index_error qs conn drop table entry :
  odict_get table (queries qs) = Some entry → entry !! "index" = None →
  raises_only (λ e, e ≠ KeyError "index")
    (mirror_table E qs conn drop table).
Proof.
  intros Hq Hi.
  assert (∀ fld, fld ≠ "index" →
          raises_only (S:=S) (λ e, e ≠ KeyError "index") (query qs table fld))
    as Hquery.
  { intros fld Hne. unfold query, odict_getitem. rewrite Hq.
    apply raises_bind; [apply raises_ret|]. intros ?.
    apply raises_getitem. congruence. }
  assert (∀ {A} (m : M S A),
          raises_only (λ e, e ≠ KeyError "index") m →
          raises_only (λ e, e ≠ KeyError "index")
            (try_except m (on_sqlite_error error_object))) as Htry.
  { intros A m Hm.
    apply (raises_try_except _ (λ e, e ≠ KeyError "index")); [done|done|].
    intros e0 k0 He0; destruct e0; simplify_eq/=.
    apply raises_bind; [apply raises_emit|]. intros _.
    by apply raises_raise. }
  unfold mirror_table.
  apply raises_bind; [by apply Hquery|]. intros read.
  apply raises_bind; [by apply raises_call|]. intros _.
  apply raises_bind.
  { destruct drop; [|apply raises_ret]. unfold recreate_table.
    apply raises_bind; [apply raises_emit|]. intros _.
    apply raises_bind; [apply Htry; by apply raises_call|]. intros _.
    apply raises_bind.
    { apply Htry. apply raises_bind; [by apply Hquery|]. intros ?.
      by apply raises_call. }
    intros _. intros s e.
    unfold bind, result_of.
    rewrite (index_defined_absent qs table entry s Hq Hi). by simpl. }
  intros _. apply raises_bind; [apply raises_emit|]. intros _.
  apply raises_bind; [by apply raises_call_val|]. intros rows.
  apply raises_bind; [apply raises_emit|]. intros _.
  apply raises_bind; [|intros _; apply raises_emit].
  apply raises_for_each. intros r. unfold write_row.
  apply (raises_try_except _ (λ e, e ≠ KeyError "index")).
  - apply raises_bind; [by apply Hquery|]. intros ?. by apply raises_call.
  - done.
  - intros e0 k0 He0; destruct e0; simplify_eq/=.
    apply raises_bind; [apply raises_emit|]. intros _.
    apply raises_bind; [apply raises_emit|]. intros _.
    by apply raises_raise.
Qed.

End IndexAbsent.

(** ** The new-file flag *)

Section NewFlag.
Context {S : Type} (E : engine S).



End NewFlag.

(** ** Facts about the reference engine *)

Section Reference.
Import RefEngine.








End Reference.

(** * The claims *)

Section CommitClaim.
Context {S : Type} (E : engine S).

(** C1, as the script behaves.  A run that completes issues exactly one
    commit, and that commit comes after the table loop has gone through
    every table of the catalog without an error; a run that ends through
    [sys.exit] has issued no commit, no run issues more than one, and
    whenever a commit is issued the table loop has completed before it.  A
    schema script that fails and a row write that fails both end in
    [sys.exit(1)].  Nothing is said about the contents of the destination
    after a failed run. *)
Theorem commit_once_after_every_table gs qs s :
  (result_of (main E gs qs s) = Ok tt →
   count is_commit (events_of (main E gs qs s)) = 1%nat
   ∧ ∃ pre conn drop s1 loop s2,
       mirror_tables E qs conn drop s1 = (loop, s2, Ok tt)
       ∧ events_of (main E gs qs s) = pre ++ loop ++ cleanup_events conn
       ∧ count is_commit (pre ++ loop) = 0%nat)
  ∧ (fatal (result_of (main E gs qs s)) →
     count is_commit (events_of (main E gs qs s)) = 0%nat)
  ∧ (count is_commit (events_of (main E gs qs s)) ≤ 1)%nat
  ∧ (count is_commit (events_of (main E gs qs s)) = 1%nat →
     ∃ pre conn drop s1 loop s2 post,
       mirror_tables E qs conn drop s1 = (loop, s2, Ok tt)
       ∧ events_of (main E gs qs s) = pre ++ loop ++ post
       ∧ count is_commit (pre ++ loop) = 0%nat)
  ∧ (∀ conn script s1 s2,
       for_acc (odict_keys (queries qs)) EmptyString (schema_step qs) s1
         = ([], s1, Ok script) →
       e_executescript E conn script s1 = (false, s2) →
       result_of (import_sqlite_db_schema E conn gs qs s1)
         = Raise (SystemExit (ExitStatus 1)))
  ∧ (∀ conn table r write s1 s2,
       query qs table "write" s1 = ([], s1, Ok write) →
       e_execute_params E conn write r s1 = (false, s2) →
       result_of (write_row E qs conn table r s1)
         = Raise (SystemExit (ExitStatus 1))).
Proof.
  split_and!.
  - intros Hok.
    destruct (main_shape E gs qs s) as [[_ [e He]]|
      (pre & conn & drop & s1 & loop & s2 & Hl & Hev & Hr & Hc)];
      [congruence|].
    destruct (cleanup_run E conn s2) as (C1 & _ & C3).
    rewrite Hr in Hok. specialize (C3 Hok). split.
    + rewrite Hev, app_assoc, count_app, Hc, C1. done.
    + exists pre, conn, drop, s1, loop, s2. by rewrite Hev, C3.
  - intros Hf.
    destruct (main_shape E gs qs s) as [[H0 _]|
      (pre & conn & drop & s1 & loop & s2 & Hl & Hev & Hr & Hc)]; [done|].
    destruct (cleanup_run E conn s2) as (_ & C2 & _).
    rewrite Hr in Hf. by destruct C2.
  - destruct (main_shape E gs qs s) as [[-> _]|
      (pre & conn & drop & s1 & loop & s2 & Hl & Hev & Hr & Hc)]; [lia|].
    destruct (cleanup_run E conn s2) as (C1 & _ & _).
    rewrite Hev, app_assoc, count_app, Hc, C1. done.
  - intros Hone.
    destruct (main_shape E gs qs s) as [[H0 _]|
      (pre & conn & drop & s1 & loop & s2 & Hl & Hev & Hr & Hc)];
      [congruence|].
    by exists pre, conn, drop, s1, loop, s2, (events_of (cleanup E conn s2)).
  - intros conn script s1 s2 Hs Hx.
    by rewrite (import_run E conn gs qs s1 script Hs), Hx.
  - intros conn table r write s1 s2 Hq Hx.
    by rewrite (write_row_run E qs conn table r s1 write Hq), Hx.
Qed.

End CommitClaim.

Section CommitExamples.
Import RefEngine Examples.

Lemma commit_once_after_every_table_witness :
  count is_commit
    (events_of (main eng (settings false false) catalog fresh)) = 1%nat.
Proof.
  apply (commit_once_after_every_table eng (settings false false) catalog
           fresh).
  vm_compute. reflexivity.
Defined.

(** C1 as stated fails: the second statement of the schema script is
    rejected, the process exits without a commit, and the table created by
    the first statement stays in the database file. *)
Lemma failed_import_leaves_table :
  let run := main eng (settings false false) catalog_bad_schema empty_db in
  result_of run = Raise (SystemExit (ExitStatus 1))
  ∧ count is_commit (events_of run) = 0%nat
  ∧ file empty_db = Some ∅
  ∧ file (state_of run) = Some {[ "users" := [] ]}
  ∧ file (state_of run) ≠ file empty_db.
Proof. vm_compute. split_and!; try reflexivity. discriminate. Qed.

End CommitExamples.

Section ImportClaim.
Context {S : Type} (E : engine S).

(** C2.  Take a run that has opened its SQLite connection and whose first
    probe then answers [has].  If the probe found no table, the schema
    importer is entered exactly once, no row has been written before, and
    at most one script is executed; if it found a table and the database
    file existed before the run, the importer is never entered and no
    script is executed. *)
Theorem schema_import_gating gs qs s0 t0 s1 is_new conn db t1 s2 has :
  open_connections E gs qs s0 = (t0, s1, Ok (is_new, conn)) →
  sqlitedb_config gs !! "db_file" = Some db →
  sqlite_db_has_tables E db s1 = (t1, s2, Ok has) →
  (has = false →
   count is_import_start (events_of (main E gs qs s0)) = 1%nat
   ∧ (count is_script (events_of (main E gs qs s0)) ≤ 1)%nat
   ∧ ∃ pre post,
       events_of (main E gs qs s0) = pre ++ Log INFO import_started :: post
       ∧ count is_row_write pre = 0%nat)
  ∧ (has = true → is_new = false →
     count is_import_start (events_of (main E gs qs s0)) = 0%nat
     ∧ count is_script (events_of (main E gs qs s0)) = 0%nat).
Proof.
  intros H0 Hdb Hp.
  destruct (no_import_before_schema E gs qs db) as [B0 B1].
  destruct (no_row_write_before_loop E gs qs db) as [W0 W1].
  pose proof (emits_run _ _ _ _ _ _ B0 H0) as F0.
  pose proof (emits_run _ _ _ _ _ _ B1 Hp) as F1.
  pose proof (emits_run _ _ _ _ _ _ W0 H0) as G0.
  pose proof (emits_run _ _ _ _ _ _ W1 Hp) as G1.
  apply Forall_and in F0 as [F0i F0s]. apply Forall_and in F1 as [F1i F1s].
  assert (∃ X, events_of (main E gs qs s0)
               = t0 ++ events_of (prepare_schema E gs qs is_new conn s1) ++ X
             ∧ Forall (λ ev, is_import_start ev = false ∧ is_script ev = false)
                 X) as (X & -> & FX).
  { unfold main. rewrite (bind_ok _ _ _ _ _ _ H0).
    unfold events_of at 1. cbn [fst snd]. unfold mirror_run.
    rewrite events_bind. eexists. split; [reflexivity|].
    destruct (result_of _); [|constructor].
    apply (no_import_after_schema E gs qs conn). }
  apply Forall_and in FX as [FXi FXs].
  rewrite (prepare_schema_run E gs qs is_new conn db s1 t1 s2 has Hdb Hp).
  destruct (import_events E conn gs qs s2) as (rest & Hi & Ri & Rw & Rs).
  split.
  - intros ->. rewrite orb_true_r, Hi. split_and!.
    + rewrite !count_app. cbn [count].
      rewrite (count_none _ _ F0i), (count_none _ _ F1i),
        (count_none _ _ FXi), Ri. reflexivity.
    + rewrite !count_app. cbn [count is_script].
      rewrite (count_none _ _ F0s), (count_none _ _ F1s),
        (count_none _ _ FXs). lia.
    + exists (t0 ++ t1 ++
              [Log INFO
                 "%s database file is new or is missing tables; importing schema."]),
        (rest ++ X).
      split; [by rewrite <- !app_assoc|].
      rewrite !count_app, (count_none _ _ G0), (count_none _ _ G1). done.
  - intros -> ->. cbn [orb negb]. split.
    + rewrite !count_app. cbn [count].
      rewrite (count_none _ _ F0i), (count_none _ _ F1i),
        (count_none _ _ FXi). reflexivity.
    + rewrite !count_app. cbn [count is_script].
      by rewrite (count_none _ _ F0s), (count_none _ _ F1s),
        (count_none _ _ FXs).
Qed.

End ImportClaim.

Section ImportExamples.
Import RefEngine Examples.

Lemma schema_import_gating_witness :
  count is_import_start
    (events_of (main eng (settings false false) catalog empty_db)) = 1%nat
  ∧ count is_import_start
      (events_of (main eng (settings false false) catalog stale_db)) = 0%nat.
Proof.
  split.
  - edestruct (schema_import_gating eng (settings false false) catalog
                 empty_db) as [H _].
    + vm_compute. reflexivity.
    + vm_compute. reflexivity.
    + vm_compute. reflexivity.
    + apply H. reflexivity.
  - edestruct (schema_import_gating eng (settings false false) catalog
                 stale_db) as [_ H].
    + vm_compute. reflexivity.
    + vm_compute. reflexivity.
    + vm_compute. reflexivity.
    + apply H; reflexivity.
Defined.

End ImportExamples.

Section DropFlagClaim.
Context {S : Type} (E : engine S).


End DropFlagClaim.

Section DropFlagExamples.
Import RefEngine Examples.



End DropFlagExamples.

Section TableOrderClaim.
Context {S : Type} (E : engine S).


End TableOrderClaim.

Section TableOrderExamples.
Import RefEngine Examples.


Example domains_calls :
  calls (events_of (mirror_table eng catalog 0%nat true "domains" connected))
  = [MysqlExecute "SELECT id,name FROM domains";
     SqliteExecute 0%nat "DROP TABLE IF EXISTS domains";
     SqliteExecute 0%nat "CREATE TABLE domains(id INT, name TEXT)";
     SqliteExecute 0%nat "CREATE INDEX domains_idx ON domains (name)";
     MysqlFetchall;
     SqliteExecuteParams 0%nat "INSERT INTO domains VALUES (?,?)"
       [PyInt 1; PyStr "example.org"]].
Proof. vm_compute. reflexivity. Qed.

End TableOrderExamples.

Section AutocommitClaim.
Import RefEngine Examples.


End AutocommitClaim.

Section StorageClaim.
Context {S : Type} (E : engine S).

(** C9.  [verify_sqlite_storage], for settings that define the two paths
    and the two flags.  Missing base directory: fatal when
    [fail_on_warnings] is set; otherwise, when [create_directories] is set,
    [os.makedirs] is called and the check is fatal iff that call fails;
    otherwise it is fatal with the create-it-yourself message.  Existing
    directory and existing file: fatal iff the file is not writable.
    Existing directory and no file: fatal iff the directory is not
    writable.  In every case the check either returns or ends the process
    through [sys.exit]. *)
Theorem storage_check_branches gs qs s base_dir db_file
    (fail_on_warnings create_directories : bool) :
  sqlitedb_config gs !! "base_dir" = Some base_dir →
  sqlitedb_config gs !! "db_file" = Some db_file →
  flags gs !! "fail_on_warnings" = Some fail_on_warnings →
  flags gs !! "create_directories" = Some create_directories →
  (e_path_isdir E base_dir s = false →
   (fail_on_warnings = true →
    verify_sqlite_storage E gs qs s
    = ([Log WARNING "%s does not exist!";
        Log ERROR "Aborting due to missing directory!"], s,
       Raise (SystemExit (ExitStatus 1))))
   ∧ (fail_on_warnings = false → create_directories = true →
      In (Makedirs base_dir) (events_of (verify_sqlite_storage E gs qs s))
      ∧ (fatal (result_of (verify_sqlite_storage E gs qs s))
         ↔ (e_makedirs E base_dir s).1 = false)
      ∧ ((e_makedirs E base_dir s).1 = true →
         result_of (verify_sqlite_storage E gs qs s) = Ok tt))
   ∧ (fail_on_warnings = false → create_directories = false →
      count (λ ev, match ev with Makedirs _ => true | _ => false end)
        (events_of (verify_sqlite_storage E gs qs s)) = 0%nat
      ∧ result_of (verify_sqlite_storage E gs qs s)
        = Raise (SystemExit (ExitMessage (missing_dir_message base_dir)))))
  ∧ (e_path_isdir E base_dir s = true → e_path_exists E db_file s = true →
     (fatal (result_of (verify_sqlite_storage E gs qs s))
      ↔ e_access E db_file W_OK s = false)
     ∧ (e_access E db_file W_OK s = true →
        verify_sqlite_storage E gs qs s = ([], s, Ok tt)))
  ∧ (e_path_isdir E base_dir s = true → e_path_exists E db_file s = false →
     (fatal (result_of (verify_sqlite_storage E gs qs s))
      ↔ e_access E base_dir W_OK s = false)
     ∧ (e_access E base_dir W_OK s = true →
        verify_sqlite_storage E gs qs s = ([], s, Ok tt)))
  ∧ (result_of (verify_sqlite_storage E gs qs s) = Ok tt
     ∨ fatal (result_of (verify_sqlite_storage E gs qs s))).
Proof.
  intros Hb Hf Hw Hc.
  unfold verify_sqlite_storage, file_can_be_modified, dir_can_be_modified,
    try_except_else, getitem, ask, call, log, log_exception, sys_exit, emit,
    bind, raise, ret, fatal, result_of, events_of.
  rewrite Hb, Hf, Hw, Hc. simpl.
  destruct (e_path_isdir E base_dir s); simpl.
  - split; [done|].
    destruct (e_path_exists E db_file s); simpl.
    + split; [|split; [done|]].
      * intros _ _.
        destruct (e_access E db_file W_OK s); simpl;
          (split; [split; [by intros [? ?]|done || eauto]|done]).
      * destruct (e_access E db_file W_OK s); simpl; eauto.
    + split; [done|split].
      * intros _ _.
        destruct (e_access E base_dir W_OK s); simpl;
          (split; [split; [by intros [? ?]|done || eauto]|done]).
      * destruct (e_access E base_dir W_OK s); simpl; eauto.
  - split; [|split; [done|split; [done|]]].
    + intros _. destruct fail_on_warnings; simpl.
      { split; [done|]. split; done. }
      split; [done|].
      destruct create_directories; simpl.
      * split; [|done]. intros _ _.
        destruct (e_makedirs E base_dir s) as [[] s1]; simpl.
        -- split; [by right; left|]. split; [|done].
           split; [by intros [? ?]|done].
        -- split; [by right; left|]. split; [|done].
           split; [done|]. eauto.
      * split; [done|]. intros _ _. done.
    + destruct fail_on_warnings; simpl; [eauto|].
      destruct create_directories; simpl; [|eauto].
      destruct (e_makedirs E base_dir s) as [[] s1]; simpl; eauto.
Qed.

End StorageClaim.

Section StorageExamples.
Import RefEngine Examples.

Lemma storage_check_branches_witness :
  verify_sqlite_storage eng (settings true false) catalog no_directory
  = ([Log WARNING "%s does not exist!";
      Log ERROR "Aborting due to missing directory!"], no_directory,
     Raise (SystemExit (ExitStatus 1)))
  ∧ verify_sqlite_storage eng (settings false false) catalog fresh
    = ([], fresh, Ok tt).
Proof.
  split.
  - apply (storage_check_branches eng (settings true false) catalog
             no_directory "/var/cache/mysql2sqlite"
             "/var/cache/mysql2sqlite/mailserver.db" true false);
      reflexivity.
  - apply (storage_check_branches eng (settings false false) catalog
             fresh "/var/cache/mysql2sqlite"
             "/var/cache/mysql2sqlite/mailserver.db" false false);
      reflexivity.
Defined.

End StorageExamples.

Section ProbeClaim.
Context {S : Type} (E : engine S).

(** C7, as the function behaves.  The probe opens a connection of its own,
    runs the table count on it and returns true iff the count is greater
    than zero (the count of an aggregate is never negative).  It never
    calls [close]: on no path is the connection it opened released by the
    probe itself. *)
Theorem probe_counts_and_never_closes path s :
  count is_close (events_of (sqlite_db_has_tables E path s)) = 0%nat
  ∧ ∀ h s1 s2 s3 n rest,
      e_sqlite_connect E path s = (Some h, s1) →
      e_execute E h count_tables_sql s1 = (true, s2) →
      e_fetchone E h s2 = (Some (Some (PyInt n :: rest)), s3) →
      0 ≤ n →
      sqlite_db_has_tables E path s
      = ([SqliteConnect path; SqliteExecute h count_tables_sql;
          SqliteFetchone h], s3, Ok (bool_decide (0 < n))).
Proof.
  split.
  - apply count_none. by apply probe_emits.
  - intros h s1 s2 s3 n rest Hc He Hf Hn.
    unfold sqlite_db_has_tables, call_val, call, bind, ret.
    rewrite Hc, He, Hf. simpl. do 2 f_equal.
    destruct (Z.eqb_spec n 0) as [->|]; simpl.
    + done.
    + by rewrite bool_decide_eq_true_2 by lia.
Qed.

End ProbeClaim.

Section ProbeExamples.
Import RefEngine Examples.

Lemma probe_counts_and_never_closes_witness :
  sqlite_db_has_tables eng (db_file stale_db) stale_db
  = ([SqliteConnect (db_file stale_db); SqliteExecute 0%nat count_tables_sql;
      SqliteFetchone 0%nat],
     state_of (sqlite_db_has_tables eng (db_file stale_db) stale_db),
     Ok (bool_decide (0 < 1))).
Proof.
  eapply (probe_counts_and_never_closes eng (db_file stale_db) stale_db).
  - vm_compute. reflexivity.
  - vm_compute. reflexivity.
  - vm_compute. reflexivity.
  - lia.
Defined.

(** C7 as stated fails: after the probe has returned, the connection it
    opened is still open. *)
Lemma probe_leaves_connection_open :
  let run := sqlite_db_has_tables eng (db_file empty_db) empty_db in
  result_of run = Ok false
  ∧ open_connections_of empty_db = []
  ∧ open_connections_of (state_of run) = [0%nat]
  ∧ count is_close (events_of run) = 0%nat.
Proof. vm_compute. by split_and!. Qed.

End ProbeExamples.

Section CatalogClaim.
Context {S : Type}.


End CatalogClaim.

Section CatalogExamples.
Import RefEngine Examples.



End CatalogExamples.

Section OptionalIndexClaim.
Context {S : Type} (E : engine S).

(** C8.  For a catalog entry without an [index] field: the schema
    importer adds the create statement of the table to its script and
    nothing else; a pass of the table loop calls the source read, then
    (when the drop flag is set) DROP TABLE IF EXISTS and the create
    statement, then the fetch and the row writes, and no other statement;
    and neither ends with a [KeyError] for the missing field. *)
Theorem missing_index_runs_no_statement qs table entry :
  odict_get table (queries qs) = Some entry → entry !! "index" = None →
  (∀ acc (s : S),
     schema_step qs acc table s
     = ([], s,
        match entry !! "new" with
        | Some new => Ok (acc +:+ schema_line new)
        | None => Raise (KeyError "new")
        end))
  ∧ (∀ conn drop s,
       (∃ rows,
          calls (events_of (mirror_table E qs conn drop table s))
          `prefix_of`
            [MysqlExecute (field qs table "read")]
            ++ (if drop : bool
                then [SqliteExecute conn (drop_table_sql table);
                      SqliteExecute conn (field qs table "new")]
                else [])
            ++ [MysqlFetchall]
            ++ map (SqliteExecuteParams conn (field qs table "write")) rows)
       ∧ result_of (mirror_table E qs conn drop table s)
         ≠ Raise (KeyError "index")).
Proof.
  intros Hq Hi. split.
  - intros acc s. unfold schema_step, query, odict_getitem, getitem.
    rewrite Hq. unfold bind at 1. unfold bind at 1. unfold ret at 1.
    destruct (entry !! "new") as [new|]; [|done].
    unfold ret at 1. unfold bind.
    by rewrite (index_defined_absent qs table entry s Hq Hi).
  - intros conn drop s. split.
    + destruct (mirror_table E qs conn drop table s) as [[t s'] r] eqn:H.
      destruct (mirror_table_calls E qs conn drop table s t s' r H)
        as (rows & Hp & _).
      exists rows. revert Hp. unfold table_calls, recreate_calls, events_of.
      rewrite (has_index_absent qs table entry Hq Hi). cbn [fst].
      by rewrite app_nil_r.
    + intros H.
      by apply (mirror_table_no_index_error E qs conn drop table entry Hq Hi
                  s (KeyError "index")).
Qed.

End OptionalIndexClaim.

Section OptionalIndexExamples.
Import RefEngine Examples.

Lemma missing_index_runs_no_statement_witness :
  schema_step (S:=world) catalog EmptyString "users" connected
  = ([], connected,
     Ok (EmptyString +:+ schema_line "CREATE TABLE users(id INT, name TEXT)")).
Proof.
  apply (missing_index_runs_no_statement eng catalog "users" users);
    reflexivity.
Defined.

Example users_calls :
  calls (events_of (mirror_table eng catalog 0%nat true "users" connected))
  = [MysqlExecute "SELECT id,name FROM users";
     SqliteExecute 0%nat "DROP TABLE IF EXISTS users";
     SqliteExecute 0%nat "CREATE TABLE users(id INT, name TEXT)";
     MysqlFetchall;
     SqliteExecuteParams 0%nat "INSERT INTO users VALUES (?,?)"
       [PyInt 1; PyStr "Alice"];
     SqliteExecuteParams 0%nat "INSERT INTO users VALUES (?,?)"
       [PyInt 2; PyStr "Bob"]].
Proof. vm_compute. reflexivity. Qed.

End OptionalIndexExamples.

Section MissingFileClaim.
Import RefEngine Examples.




End MissingFileClaim.

(** * Further properties of the two files *)

(** ** The console filter *)

Section ConsoleFilter.
Context {S : Type}.

(** X1.  With a settings object whose four display flags are defined, the
    console filter lets a record through iff its level is ERROR, WARNING,
    INFO or DEBUG and the flag of that level is set; a record of any other
    level (CRITICAL, say) is rejected whatever the flags are. *)
Theorem console_filter_decision settings levelname (s : S)
    (e w i d : bool) :
  flags settings !! "display_console_error_messages" = Some e →
  flags settings !! "display_console_warning_messages" = Some w →
  flags settings !! "display_console_info_messages" = Some i →
  flags settings !! "display_console_debug_messages" = Some d →
  ConsoleFilterFunc_filter (Some settings) levelname s
  = ([], s,
     Ok (PyBool match console_flag levelname with
                | Some flag => default false (flags settings !! flag)
                | None => false
                end)).
Proof.
  intros He Hw Hi Hd.
  unfold ConsoleFilterFunc_filter, console_flag, getitem, bind, ret.
  rewrite He, Hw, Hi, Hd. simpl.
  destruct (String.eqb_spec levelname "ERROR") as [->|_]; simpl.
  { rewrite He. by destruct e, w, i, d. }
  rewrite andb_false_r.
  destruct (String.eqb_spec levelname "WARNING") as [->|_]; simpl.
  { rewrite Hw. by destruct w, i, d. }
  rewrite andb_false_r.
  destruct (String.eqb_spec levelname "INFO") as [->|_]; simpl.
  { rewrite Hi. by destruct i, d. }
  rewrite andb_false_r.
  destruct (String.eqb_spec levelname "DEBUG") as [->|_]; simpl.
  { rewrite Hd. by destruct d. }
  by rewrite andb_false_r.
Qed.

(** X2.  The filter reads its flags one after the other and stops at the
    first that lets the record through: with the error flag set an ERROR
    record passes even if no other flag is defined, while without the
    error flag in the settings every record, of whatever level, ends in
    [KeyError]. *)
Theorem console_filter_reads_flags_in_order settings levelname (s : S) :
  (flags settings !! "display_console_error_messages" = Some true →
   ConsoleFilterFunc_filter (Some settings) "ERROR" s
   = ([], s, Ok (PyBool true)))
  ∧ (flags settings !! "display_console_error_messages" = None →
     ConsoleFilterFunc_filter (Some settings) levelname s
     = ([], s, Raise (KeyError "display_console_error_messages"))).
Proof.
  unfold ConsoleFilterFunc_filter, getitem, bind, ret, raise.
  split; by intros ->.
Qed.

(** X3.  Without a settings object the filter lets exactly the ERROR and
    WARNING records through; for every other record it returns [None],
    never [False]. *)
Theorem console_filter_without_settings levelname (s : S) :
  ∃ v,
    ConsoleFilterFunc_filter None levelname s = ([], s, Ok v)
    ∧ v ≠ PyBool false
    ∧ (py_bool v = true ↔ levelname = "ERROR" ∨ levelname = "WARNING").
Proof.
  unfold ConsoleFilterFunc_filter, ret.
  destruct (String.eqb_spec levelname "ERROR") as [->|Hne].
  { eexists. split_and!; [done|done|]. split; [by left|done]. }
  destruct (String.eqb_spec levelname "WARNING") as [->|Hnw].
  { eexists. split_and!; [done|done|]. split; [by right|done]. }
  eexists. split_and!; [done|done|]. simpl. split; [done|].
  by intros [?|?].
Qed.

End ConsoleFilter.

Section ConsoleFilterExamples.
Import RefEngine Examples MoreExamples.

Lemma console_filter_decision_witness :
  ConsoleFilterFunc_filter (Some (console_settings true true false false))
    "INFO" fresh = ([], fresh, Ok (PyBool false))
  ∧ ConsoleFilterFunc_filter (Some (console_settings true true true true))
      "CRITICAL" fresh = ([], fresh, Ok (PyBool false)).
Proof.
  split.
  - apply (console_filter_decision (console_settings true true false false)
             "INFO" fresh true true false false); reflexivity.
  - apply (console_filter_decision (console_settings true true true true)
             "CRITICAL" fresh true true true true); reflexivity.
Defined.

Lemma console_filter_reads_flags_in_order_witness :
  ConsoleFilterFunc_filter (Some (settings false false)) "INFO" fresh
  = ([], fresh, Raise (KeyError "display_console_error_messages")).
Proof.
  apply (console_filter_reads_flags_in_order (settings false false) "INFO"
           fresh).
  reflexivity.
Defined.

Lemma console_filter_without_settings_witness :
  ∃ v,
    ConsoleFilterFunc_filter None "WARNING" fresh = ([], fresh, Ok v)
    ∧ py_bool v = true.
Proof.
  destruct (console_filter_without_settings "WARNING" fresh)
    as (v & H & _ & Hv).
  exists v. split; [done|]. apply Hv. by right.
Defined.

End ConsoleFilterExamples.

(** ** The general settings *)

Section Quiet.
Context {S : Type}.

Lemma bind_ret_l {A B} (a : A) (k : A → M S B) s : bind (ret a) k s = k a s.
Proof. unfold bind, ret. by destruct (k a s) as [[? ?] ?]. Qed.

Lemma bind_quiet {A B} (m : M S A) (k : A → M S B) s a :
  m s = ([], s, Ok a) → bind m k s = k a s.
Proof. intros H. unfold bind. rewrite H. by destruct (k a s) as [[? ?] ?]. Qed.

Lemma bind_ask {A B} (f : S → A) (k : A → M S B) s :
  bind (ask f) k s = k (f s) s.
Proof. unfold bind, ask. by destruct (k (f s) s) as [[? ?] ?]. Qed.

Lemma bind_log {B} lv msg (k : unit → M S B) s :
  bind (log lv msg) k s
  = (Log lv msg :: events_of (k tt s), state_of (k tt s),
     result_of (k tt s)).
Proof. unfold bind, log, emit. by destruct (k tt s) as [[? ?] ?]. Qed.

End Quiet.

Section GeneralSettingsInit.
Context {S : Type}.

(** The flag loop converts every key, in order, and fails with the first
    conversion that fails. *)
Lemma flags_loop_ok parser keys (acc : gmap string bool) (s : S) :
  (∀ key, key ∈ keys → ∃ v, getboolean parser "flags" key = Ok v) →
  ∃ flags,
    for_acc keys acc (λ flags key,
      value <- parser_getboolean parser "flags" key ;;
      ret (<[key := value]> flags)) s = ([], s, Ok flags)
    ∧ ∀ k, flags !! k
           = if decide (k ∈ keys)
             then match getboolean parser "flags" k with
                  | Ok v => Some v
                  | Raise _ => None
                  end
             else acc !! k.
Proof.
  revert acc. induction keys as [|x xs IH]; intros acc Hall.
  - exists acc. split; [done|]. intros k.
    destruct (decide (k ∈ [])) as [H|]; [by apply elem_of_nil in H|done].
  - destruct (Hall x) as [v Hv]; [apply list_elem_of_here|].
    destruct (IH (<[x := v]> acc)) as (flags & Hrun & Hget).
    { intros key Hin. by apply Hall, list_elem_of_further. }
    exists flags. split.
    + cbn [for_acc]. unfold bind at 1. unfold parser_getboolean at 1.
      rewrite Hv. unfold bind at 1. unfold ret at 1 2. by rewrite Hrun.
    + intros k. rewrite Hget.
      destruct (decide (k ∈ xs)) as [Hin|Hnin];
        destruct (decide (k ∈ x :: xs)) as [Hin'|Hnin']; try done.
      * destruct Hnin'. by apply list_elem_of_further.
      * apply elem_of_cons in Hin' as [->|?]; [|done].
        by rewrite lookup_insert_eq, Hv.
      * rewrite lookup_insert_ne; [done|]. intros ->.
        destruct Hnin'. apply list_elem_of_here.
Qed.

(** X4.  When a config file was read, the three sections exist and every
    value asked for converts to a boolean, the constructor returns
    settings in which: [sqlitedb_config] is the dictionary of its section;
    [mysqldb_config] is the dictionary of its section with
    [raise_on_warnings] replaced by its boolean; and [flags] has exactly
    the options of the [flags] section, each mapped to its boolean. *)
Theorem general_settings_loaded files parser (s : S) fl my sq b :
  processed_files (parsed parser) ≠ [] →
  items (parsed parser) "flags" = Some fl →
  items (parsed parser) "mysqldb_config" = Some my →
  items (parsed parser) "sqlitedb_config" = Some sq →
  getboolean parser "mysqldb_config" "raise_on_warnings" = Ok b →
  (∀ key, key ∈ dict_keys fl → ∃ v, getboolean parser "flags" key = Ok v) →
  ∃ gs,
    GeneralSettings_init files parser s = ([], s, Ok gs)
    ∧ sqlitedb_config gs = py_dict sq
    ∧ mysqldb_config gs !! "raise_on_warnings" = Some (PyBool b)
    ∧ (∀ k, k ≠ "raise_on_warnings" →
         mysqldb_config gs !! k = PyStr <$> py_dict my !! k)
    ∧ (∀ k v, flags gs !! k = Some v
              ↔ k ∈ dict_keys fl ∧ getboolean parser "flags" k = Ok v).
Proof.
  intros Hp Hfl Hmy Hsq Hb Hall.
  destruct (flags_loop_ok parser (dict_keys fl) ∅ s Hall)
    as (flg & Hrun & Hget).
  eexists. split.
  - unfold GeneralSettings_init.
    destruct (processed_files (parsed parser)); [done|].
    rewrite bind_ret_l. unfold try_except, parser_items.
    rewrite Hfl, Hmy, Hsq. rewrite !bind_ret_l.
    unfold parser_getboolean at 1. rewrite Hb, bind_ret_l.
    rewrite (bind_quiet _ _ _ _ Hrun). reflexivity.
  - cbn [sqlitedb_config mysqldb_config flags]. split_and!.
    + done.
    + apply lookup_insert_eq.
    + intros k Hk. rewrite lookup_insert_ne by done. apply lookup_fmap.
    + intros k v. rewrite Hget, lookup_empty.
      destruct (decide (k ∈ dict_keys fl)) as [Hin|Hnin].
      * destruct (getboolean parser "flags" k) as [v'|e'].
        -- split; [by intros [= ->]|by intros [_ [= ->]]].
        -- split; [done|by intros [_ ?]].
      * split; [done|by intros [? _]].
Qed.

(** X5.  The constructor's two failures of its own.  When no config file
    could be read it logs an error and raises [IOError], whatever the
    parser holds.  Otherwise the first of the sections [flags],
    [mysqldb_config], [sqlitedb_config] that is missing ends it in
    [NoSectionError] for that section, logged once and raised again. *)
Theorem general_settings_failures files parser (s : S) :
  (processed_files (parsed parser) = [] →
   ∃ msg, GeneralSettings_init files parser s
          = ([Log ERROR msg], s, Raise OSError))
  ∧ (processed_files (parsed parser) ≠ [] →
     let missing section :=
       GeneralSettings_init files parser s
       = ([Log ERROR "Unable to parse config file: %s"], s,
          Raise (NoSectionError section)) in
     (items (parsed parser) "flags" = None → missing "flags")
     ∧ (is_Some (items (parsed parser) "flags") →
        items (parsed parser) "mysqldb_config" = None →
        missing "mysqldb_config")
     ∧ (is_Some (items (parsed parser) "flags") →
        is_Some (items (parsed parser) "mysqldb_config") →
        items (parsed parser) "sqlitedb_config" = None →
        missing "sqlitedb_config")).
Proof.
  split.
  - intros Hp. unfold GeneralSettings_init. rewrite Hp. by eexists.
  - intros Hp. unfold GeneralSettings_init.
    destruct (processed_files (parsed parser)); [done|].
    rewrite bind_ret_l. unfold try_except, parser_items. split_and!.
    + by intros ->.
    + intros [fl ->] ->. by rewrite bind_ret_l.
    + intros [fl ->] [my ->] ->. by rewrite !bind_ret_l.
Qed.

(** X6.  A value that does not convert is not the constructor's to
    handle: when the three sections exist, whatever [getboolean] raises
    for [raise_on_warnings], other than [NoSectionError], leaves the
    constructor as it is and nothing is logged. *)
Theorem general_settings_conversion_error files parser (s : S) fl my sq e :
  processed_files (parsed parser) ≠ [] →
  items (parsed parser) "flags" = Some fl →
  items (parsed parser) "mysqldb_config" = Some my →
  items (parsed parser) "sqlitedb_config" = Some sq →
  getboolean parser "mysqldb_config" "raise_on_warnings" = Raise e →
  (∀ section, e ≠ NoSectionError section) →
  GeneralSettings_init files parser s = ([], s, Raise e).
Proof.
  intros Hp Hfl Hmy Hsq Hb Hne. unfold GeneralSettings_init.
  destruct (processed_files (parsed parser)); [done|].
  rewrite bind_ret_l. unfold try_except, parser_items.
  rewrite Hfl, Hmy, Hsq. rewrite !bind_ret_l.
  unfold parser_getboolean at 1. rewrite Hb.
  rewrite (bind_raise _ _ s [] s e eq_refl).
  destruct e; try done. by destruct (Hne section).
Qed.

End GeneralSettingsInit.

Section GeneralSettingsExamples.
Import RefEngine Examples MoreExamples.

Lemma general_settings_loaded_witness :
  ∃ gs,
    GeneralSettings_init ["mysql2sqlite_general.ini"] general_parser fresh
    = ([], fresh, Ok gs)
    ∧ mysqldb_config gs !! "raise_on_warnings" = Some (PyBool true).
Proof.
  destruct (general_settings_loaded ["mysql2sqlite_general.ini"]
              general_parser fresh
              [("fail_on_warnings", "false"); ("create_directories", "true")]
              [("user", "mirror"); ("raise_on_warnings", "true")]
              [("base_dir", "/var/cache/mysql2sqlite");
               ("db_file", "/var/cache/mysql2sqlite/mailserver.db")]
              true) as (gs & Hgs & _ & Hr & _).
  - discriminate.
  - reflexivity.
  - reflexivity.
  - reflexivity.
  - reflexivity.
  - intros key Hin. vm_compute in Hin.
    apply elem_of_cons in Hin as [->|Hin]; [by eexists|].
    apply list_elem_of_singleton in Hin as ->. by eexists.
  - by exists gs.
Defined.

Lemma general_settings_failures_witness :
  GeneralSettings_init ["mysql2sqlite_general.ini"] parser_without_sqlitedb
    fresh
  = ([Log ERROR "Unable to parse config file: %s"], fresh,
     Raise (NoSectionError "sqlitedb_config")).
Proof.
  apply (general_settings_failures ["mysql2sqlite_general.ini"]
           parser_without_sqlitedb fresh).
  - discriminate.
  - by eexists.
  - by eexists.
  - reflexivity.
Defined.

Lemma general_settings_conversion_error_witness :
  GeneralSettings_init ["mysql2sqlite_general.ini"] parser_not_boolean fresh
  = ([], fresh, Raise TypeError).
Proof.
  eapply (general_settings_conversion_error ["mysql2sqlite_general.ini"]
            parser_not_boolean fresh).
  - discriminate.
  - reflexivity.
  - reflexivity.
  - reflexivity.
  - reflexivity.
  - discriminate.
Defined.

End GeneralSettingsExamples.

(** ** The MySQL connection *)

Section MysqlConnection.
Context {S : Type} (E : engine S).

(** X7.  With the five connection settings defined, [open_db_connection]
    makes exactly one connection attempt, with the settings and the
    database name as its arguments; when the attempt fails it logs the
    error and ends the process with [sys.exit(1)]. *)
Theorem mysql_connection_attempt gs database s user password host port
    raise_on_warnings :
  mysqldb_config gs !! "user" = Some user →
  mysqldb_config gs !! "password" = Some password →
  mysqldb_config gs !! "host" = Some host →
  mysqldb_config gs !! "port" = Some port →
  mysqldb_config gs !! "raise_on_warnings" = Some raise_on_warnings →
  let kwargs :=
    [("user", user); ("password", password); ("host", host);
     ("port", port); ("database", database);
     ("raise_on_warnings", raise_on_warnings)] in
  open_db_connection E gs database s
  = match e_mysql_connect E kwargs s with
    | (true, s') =>
        ([Log INFO "Connecting to %s database on %s at port %s";
          MysqlConnect kwargs], s', Ok tt)
    | (false, s') =>
        ([Log INFO "Connecting to %s database on %s at port %s";
          MysqlConnect kwargs;
          Log ERROR "Unable to connect to database: %s"], s',
         Raise (SystemExit (ExitStatus 1)))
    end.
Proof.
  intros Hu Hp Hh Hpo Hr kwargs.
  unfold open_db_connection, try_except, getitem.
  rewrite Hu, Hp, Hh, Hpo, Hr.
  unfold bind, ret, call, log, log_exception, sys_exit, emit, raise.
  fold kwargs. by destruct (e_mysql_connect E kwargs s) as [[] s'].
Qed.

(** X8.  When one of the five connection settings is missing, no
    connection attempt is made: the function ends in [KeyError] for a
    missing setting and the world is as it was. *)
Theorem mysql_connection_needs_all_settings gs database s key :
  key ∈ ["user"; "password"; "host"; "port"; "raise_on_warnings"] →
  mysqldb_config gs !! key = None →
  count is_mysql_connect (events_of (open_db_connection E gs database s))
  = 0%nat
  ∧ state_of (open_db_connection E gs database s) = s
  ∧ ∃ missing,
      result_of (open_db_connection E gs database s)
      = Raise (KeyError missing)
      ∧ mysqldb_config gs !! missing = None.
Proof.
  intros Hin Hnone.
  unfold open_db_connection, try_except, getitem, bind, ret, raise, log,
    emit, events_of, state_of, result_of.
  destruct (mysqldb_config gs !! "user") as [u|] eqn:Hu; simpl;
    [|by eauto].
  destruct (mysqldb_config gs !! "host") as [h|] eqn:Hh; simpl;
    [|by eauto].
  destruct (mysqldb_config gs !! "port") as [po|] eqn:Hpo; simpl;
    [|by eauto].
  destruct (mysqldb_config gs !! "raise_on_warnings") as [r|] eqn:Hr; simpl;
    [|by eauto].
  destruct (mysqldb_config gs !! "password") as [p|] eqn:Hp; simpl;
    [|by eauto].
  repeat (apply elem_of_cons in Hin as [->|Hin]); try congruence.
  by apply elem_of_nil in Hin.
Qed.

End MysqlConnection.

Section MysqlConnectionExamples.
Import RefEngine Examples MoreExamples.

Lemma mysql_connection_attempt_witness :
  result_of (open_db_connection eng (settings false false)
               (PyStr "mailserver") mysql_down)
  = Raise (SystemExit (ExitStatus 1)).
Proof.
  rewrite (mysql_connection_attempt eng (settings false false)
             (PyStr "mailserver") mysql_down (PyStr "mirror")
             (PyStr "secret") (PyStr "db.example.org") (PyStr "3306")
             (PyBool true)); reflexivity.
Defined.

Lemma mysql_connection_needs_all_settings_witness :
  count is_mysql_connect
    (events_of (open_db_connection eng (console_settings true true true true)
                  (PyStr "mailserver") fresh)) = 0%nat.
Proof.
  apply (mysql_connection_needs_all_settings eng
           (console_settings true true true true) (PyStr "mailserver") fresh
           "password").
  - set_solver.
  - reflexivity.
Defined.

End MysqlConnectionExamples.

(** ** Opening the connections *)

Section Opening.
Context {S : Type} (E : engine S).

Lemma open_db_connection_emits (p : event → bool) gs database :
  (∀ lv msg, p (Log lv msg) = false) → (∀ kw, p (MysqlConnect kw) = false) →
  emits (λ ev, p ev = false) (open_db_connection E gs database).
Proof. intros H1 H2. unfold open_db_connection. emits; auto. Qed.

Lemma verify_sqlite_storage_emits (p : event → bool) gs qs :
  (∀ lv msg, p (Log lv msg) = false) → (∀ d, p (Makedirs d) = false) →
  emits (λ ev, p ev = false) (verify_sqlite_storage E gs qs).
Proof.
  intros H1 H2.
  unfold verify_sqlite_storage, file_can_be_modified, dir_can_be_modified.
  emits; auto.
Qed.

(** X9.  For a database file that already exists the script goes straight
    from the MySQL connection to [sqlite3.connect]: the storage check is
    skipped, so neither the directory nor the write permission of the file
    is looked at, and a failing connect is the only fatal outcome. *)
Theorem existing_file_is_not_checked gs qs s0 database t1 s1 db :
  mysqldb_config gs !! "database" = Some database →
  open_db_connection E gs database s0 = (t1, s1, Ok tt) →
  sqlitedb_config gs !! "db_file" = Some db →
  e_path_exists E db s1 = true →
  open_connections E gs qs s0
  = match e_sqlite_connect E db s1 with
    | (Some h, s2) =>
        (Log INFO "Opening connection to MySQL database"
         :: t1 ++ [SqliteConnect db;
                   Log INFO "Connected to SQLite database ..."],
         s2, Ok (false, h))
    | (None, s2) =>
        (Log INFO "Opening connection to MySQL database"
         :: t1 ++ [SqliteConnect db;
                   Log ERROR "Failed to connect to the %s database: %s"],
         s2, Raise (SystemExit (ExitStatus 1)))
    end.
Proof.
  intros Hd Ho Hdb He. unfold open_connections, getitem. rewrite Hd, Hdb.
  rewrite bind_log, bind_ret_l, (bind_ok _ _ _ _ _ _ Ho).
  rewrite bind_ret_l, bind_ask, He. cbn [negb]. rewrite bind_ret_l.
  unfold try_except_else, call_val, bind, ret, log, log_exception, sys_exit,
    emit, raise, events_of, state_of, result_of.
  destruct (e_sqlite_connect E db s1) as [[h|] s2]; simpl;
    by rewrite ?app_nil_r.
Qed.

(** X10.  For a database file that does not exist yet, a storage check
    that does not return stops the script before [sqlite3.connect] is
    called: no SQLite connection is opened and no file is created by the
    script. *)
Theorem failed_storage_check_opens_nothing gs qs s0 database t1 s1 db tv s2
    e :
  mysqldb_config gs !! "database" = Some database →
  open_db_connection E gs database s0 = (t1, s1, Ok tt) →
  sqlitedb_config gs !! "db_file" = Some db →
  e_path_exists E db s1 = false →
  verify_sqlite_storage E gs qs s1 = (tv, s2, Raise e) →
  count is_sqlite_connect (events_of (open_connections E gs qs s0)) = 0%nat
  ∧ state_of (open_connections E gs qs s0) = s2
  ∧ ∃ e', result_of (open_connections E gs qs s0) = Raise e'.
Proof.
  intros Hd Ho Hdb He Hv.
  pose proof (emits_run _ _ _ _ _ _
                (open_db_connection_emits is_sqlite_connect gs database
                   (λ _ _, eq_refl) (λ _, eq_refl)) Ho) as F1.
  pose proof (emits_run _ _ _ _ _ _
                (verify_sqlite_storage_emits is_sqlite_connect gs qs
                   (λ _ _, eq_refl) (λ _, eq_refl)) Hv) as Fv.
  unfold open_connections, getitem. rewrite Hd, Hdb.
  rewrite bind_log, bind_ret_l, (bind_ok _ _ _ _ _ _ Ho).
  rewrite bind_ret_l, bind_ask, He. cbn [negb].
  assert (∃ tl e',
            try_except (verify_sqlite_storage E gs qs)
              (λ e0, match e0 with
                     | OSError => Some (log_exception error_object ;;
                                        sys_exit (ExitStatus 1))%py
                     | _ => None
                     end) s1 = (tv ++ tl, s2, Raise e')
            ∧ count is_sqlite_connect tl = 0%nat) as (tl & e' & Ht & Hl).
  { unfold try_except. rewrite Hv.
    destruct e;
      try (eexists [], _; rewrite app_nil_r; split; [reflexivity|done]).
    unfold bind, log_exception, sys_exit, emit, raise. cbn [app].
    eexists _, _. split; [reflexivity|done]. }
  rewrite (bind_raise _ _ _ _ _ _ Ht).
  unfold events_of, state_of, result_of. cbn [fst snd count is_sqlite_connect].
  rewrite !count_app, (count_none _ _ F1), (count_none _ _ Fv), Hl.
  eauto.
Qed.

End Opening.

Section OpeningExamples.
Import RefEngine Examples MoreExamples.

Lemma existing_file_is_not_checked_witness :
  result_of (open_connections eng (settings true false) catalog stale_db)
  = Ok (false, 0%nat).
Proof.
  rewrite (existing_file_is_not_checked eng (settings true false) catalog
             stale_db (PyStr "mailserver")
             (events_of (open_db_connection eng (settings true false)
                           (PyStr "mailserver") stale_db))
             stale_db (db_file stale_db));
    reflexivity.
Defined.

Lemma failed_storage_check_opens_nothing_witness :
  count is_sqlite_connect
    (events_of (open_connections eng (settings false false) catalog
                  read_only_directory)) = 0%nat.
Proof.
  eapply (failed_storage_check_opens_nothing eng (settings false false)
            catalog read_only_directory (PyStr "mailserver")).
  - reflexivity.
  - vm_compute. reflexivity.
  - reflexivity.
  - reflexivity.
  - vm_compute. reflexivity.
Defined.

End OpeningExamples.

(** ** The table loop *)

Section TableLoop.
Context {S : Type} (E : engine S).

Lemma query_defined qs table entry fld value (s : S) :
  odict_get table (queries qs) = Some entry → entry !! fld = Some value →
  query qs table fld s = ([], s, Ok value).
Proof.
  intros Hq Hf. unfold query, odict_getitem, getitem, bind, ret.
  by rewrite Hq, Hf.
Qed.

Lemma query_undefined qs table entry fld (s : S) :
  odict_get table (queries qs) = Some entry → entry !! fld = None →
  query qs table fld s = ([], s, Raise (KeyError fld)).
Proof.
  intros Hq Hf. unfold query, odict_getitem, getitem, bind, ret, raise.
  by rewrite Hq, Hf.
Qed.




(** X13.  When a catalog entry lacks a field, the loop finds out only
    where it uses the field.  A missing [read] ends the pass in [KeyError]
    before any call is made.  A missing [write] ends it in [KeyError]
    after the table has been dropped and created again and the rows have
    been fetched, and goes unnoticed when the source table is empty. *)
Theorem missing_field_is_found_at_use qs conn table entry :
  odict_get table (queries qs) = Some entry →
  (entry !! "read" = None →
   ∀ drop s,
     mirror_table E qs conn drop table s = ([], s, Raise (KeyError "read")))
  ∧ (∀ read new rows s s1 s2 s3 s4,
       entry !! "read" = Some read → entry !! "new" = Some new →
       entry !! "index" = None → entry !! "write" = None →
       e_mysql_execute E read s = (true, s1) →
       e_execute E conn (drop_table_sql table) s1 = (true, s2) →
       e_execute E conn new s2 = (true, s3) →
       e_mysql_fetchall E s3 = (Some rows, s4) →
       calls (events_of (mirror_table E qs conn true table s))
       = [MysqlExecute read; SqliteExecute conn (drop_table_sql table);
          SqliteExecute conn new; MysqlFetchall]
       ∧ state_of (mirror_table E qs conn true table s) = s4
       ∧ result_of (mirror_table E qs conn true table s)
         = match rows with
           | [] => Ok tt
           | _ :: _ => Raise (KeyError "write")
           end).
Proof.
  intros Hq. split.
  - intros Hr drop s. unfold mirror_table.
    by rewrite (bind_raise _ _ _ _ _ _
                  (query_undefined qs table entry "read" s Hq Hr)).
  - intros read new rows s s1 s2 s3 s4 Hr Hn Hi Hw H1 H2 H3 H4.
    unfold mirror_table.
    rewrite (bind_quiet _ _ _ _ (query_defined qs table entry _ _ s Hq Hr)).
    unfold recreate_table.
    assert (index_defined qs table s3 = ([], s3, Ok false)) as Hidx.
    { unfold index_defined, odict_getitem, bind, ret. by rewrite Hq, Hi. }
    assert (∀ x s0, write_row E qs conn table x s0
                    = ([], s0, Raise (KeyError "write"))) as Hrow.
    { intros x s0. unfold write_row, try_except.
      by rewrite (bind_raise _ _ _ _ _ _
                    (query_undefined qs table entry "write" s0 Hq Hw)). }
    assert (recreate_table E qs conn table s1
            = ([Log INFO "Recreating %s SQLite table";
                SqliteExecute conn (drop_table_sql table);
                SqliteExecute conn new], s3, Ok tt)) as Hrec.
    { unfold recreate_table. rewrite bind_log.
      assert (try_except
                (call (SqliteExecute conn (drop_table_sql table))
                   (e_execute E conn (drop_table_sql table)) sqlite3_Error)
                (on_sqlite_error error_object) s1
              = ([SqliteExecute conn (drop_table_sql table)], s2, Ok tt))
        as Hd by (unfold try_except, call; by rewrite H2).
      rewrite (bind_ok _ _ _ _ _ _ Hd).
      assert (try_except
                (new0 <- query qs table "new" ;;
                 call (SqliteExecute conn new0) (e_execute E conn new0)
                   sqlite3_Error)%py
                (on_sqlite_error error_object) s2
              = ([SqliteExecute conn new], s3, Ok tt)) as Hc.
      { unfold try_except.
        rewrite (bind_quiet _ _ _ _
                   (query_defined qs table entry _ _ s2 Hq Hn)).
        unfold call. by rewrite H3. }
      rewrite (bind_ok _ _ _ _ _ _ Hc), (bind_quiet _ _ _ _ Hidx).
      done. }
    assert (call (MysqlExecute read) (e_mysql_execute E read) mysql_Error s
            = ([MysqlExecute read], s1, Ok tt)) as Hread
      by (unfold call; by rewrite H1).
    assert (call_val MysqlFetchall (e_mysql_fetchall E) mysql_Error s3
            = ([MysqlFetchall], s4, Ok rows)) as Hfetch
      by (unfold call_val; by rewrite H4).
    rewrite (bind_ok _ _ _ _ _ _ Hread), (bind_ok _ _ _ _ _ _ Hrec).
    rewrite bind_log, (bind_ok _ _ _ _ _ _ Hfetch), bind_log.
    destruct rows as [|x rows].
    + cbn [for_each]. rewrite (bind_ret_l tt).
      unfold log, emit, events_of, state_of, result_of. by cbn.
    + assert (for_each (x :: rows) (write_row E qs conn table) s4
              = ([], s4, Raise (KeyError "write"))) as Hloop.
      { cbn [for_each]. by rewrite (bind_raise _ _ _ _ _ _ (Hrow x s4)). }
      rewrite (bind_raise _ _ _ _ _ _ Hloop).
      unfold events_of, state_of, result_of. by cbn.
Qed.

End TableLoop.

Section TableLoopExamples.
Import RefEngine Examples MoreExamples.



Lemma missing_field_is_found_at_use_witness :
  result_of (mirror_table eng catalog_without_write 0%nat true "users"
               connected)
  = Raise (KeyError "write").
Proof.
  destruct (missing_field_is_found_at_use eng catalog_without_write 0%nat
              "users" users_without_write eq_refl) as [_ H].
  edestruct (H "SELECT id,name FROM users"
               "CREATE TABLE users(id INT, name TEXT)"
               [[PyInt 1; PyStr "Alice"]; [PyInt 2; PyStr "Bob"]] connected)
    as (_ & _ & Hr).
  - reflexivity.
  - reflexivity.
  - reflexivity.
  - reflexivity.
  - vm_compute. reflexivity.
  - vm_compute. reflexivity.
  - vm_compute. reflexivity.
  - vm_compute. reflexivity.
  - exact Hr.
Defined.

End TableLoopExamples.

(** ** Connections opened and closed *)

Section CleanupOnly.
Context {S : Type} (E : engine S) (p : event → bool).
Hypothesis p_log : ∀ lv msg, p (Log lv msg) = false.
Hypothesis p_makedirs : ∀ d, p (Makedirs d) = false.
Hypothesis p_mysql_connect : ∀ kw, p (MysqlConnect kw) = false.
Hypothesis p_mysql_execute : ∀ sql, p (MysqlExecute sql) = false.
Hypothesis p_mysql_fetchall : p MysqlFetchall = false.
Hypothesis p_connect : ∀ d, p (SqliteConnect d) = false.
Hypothesis p_script : ∀ h sql, p (SqliteExecutescript h sql) = false.
Hypothesis p_execute : ∀ h sql, p (SqliteExecute h sql) = false.
Hypothesis p_params : ∀ h sql r, p (SqliteExecuteParams h sql r) = false.
Hypothesis p_fetchone : ∀ h, p (SqliteFetchone h) = false.

Lemma prepare_schema_quiet gs qs is_new conn :
  emits (λ ev, p ev = false) (prepare_schema E gs qs is_new conn).
Proof.
  unfold prepare_schema, import_sqlite_db_schema, schema_step, index_defined,
    query, sqlite_db_has_tables.
  emits; auto.
Qed.

(** A run either stops before the cleanup, or it is what came before the
    cleanup followed by the cleanup; only the calls of the cleanup can
    satisfy [p]. *)
Lemma main_before_cleanup gs qs s :
  (count p (events_of (main E gs qs s)) = 0%nat
   ∧ ∃ e, result_of (main E gs qs s) = Raise e)
  ∨ (∃ pre conn s2,
       events_of (main E gs qs s) = pre ++ events_of (cleanup E conn s2)
       ∧ result_of (main E gs qs s) = result_of (cleanup E conn s2)
       ∧ count p pre = 0%nat).
Proof.
  assert (∀ msg, msg ≠ import_started → p (Log INFO msg) = false) as p_info
    by (intros; apply p_log).
  assert (emits (λ ev, p ev = false) (open_connections E gs qs)) as N0
    by (apply open_connections_emits; auto).
  pose proof (prepare_schema_quiet gs qs) as N1.
  assert (∀ conn, emits (λ ev, p ev = false) (check_autocommit E gs conn))
    as N2 by (intros; apply check_autocommit_emits; auto).
  assert (emits (λ ev, p ev = false) (decide_drop_tables E gs)) as N3
    by (apply decide_drop_tables_emits; auto).
  assert (∀ conn drop,
            emits (λ ev, p ev = false) (mirror_tables E qs conn drop)) as N4
    by (intros; apply mirror_tables_emits; auto).
  unfold main.
  stage H0 as t0 s0 opened; [|left; split; [|by eexists];
    apply count_none, (emits_run _ _ _ _ _ _ N0 H0)].
  destruct opened as [is_new conn]. unfold mirror_run.
  pose proof (emits_run _ _ _ _ _ _ N0 H0) as F0.
  stage H1 as t1 s1 imported; [|left; split; [|by eexists];
    rewrite count_app, (count_none _ _ F0);
    apply count_none, (emits_run _ _ _ _ _ _ (N1 _ _) H1)].
  pose proof (emits_run _ _ _ _ _ _ (N1 _ _) H1) as F1.
  stage H2 as t2 s2 u; [|left; split; [|by eexists];
    rewrite !count_app, (count_none _ _ F0), (count_none _ _ F1);
    apply count_none, (emits_run _ _ _ _ _ _ (N2 _) H2)].
  pose proof (emits_run _ _ _ _ _ _ (N2 _) H2) as F2.
  stage H3 as t3 s3 drop; [|left; split; [|by eexists];
    rewrite !count_app, (count_none _ _ F0), (count_none _ _ F1),
      (count_none _ _ F2);
    apply count_none, (emits_run _ _ _ _ _ _ N3 H3)].
  pose proof (emits_run _ _ _ _ _ _ N3 H3) as F3.
  stage H4 as t4 s4 u'; [|left; split; [|by eexists];
    rewrite !count_app, (count_none _ _ F0), (count_none _ _ F1),
      (count_none _ _ F2), (count_none _ _ F3);
    apply count_none, (emits_run _ _ _ _ _ _ (N4 _ _) H4)].
  pose proof (emits_run _ _ _ _ _ _ (N4 _ _) H4) as F4.
  right. exists (t0 ++ t1 ++ t2 ++ t3 ++ t4), conn, s4.
  split_and!; [by rewrite <- !app_assoc|done|].
  rewrite !count_app, (count_none _ _ F0), (count_none _ _ F1),
    (count_none _ _ F2), (count_none _ _ F3), (count_none _ _ F4). done.
Qed.

End CleanupOnly.

Section Connections.
Context {S : Type} (E : engine S).

Lemma cleanup_closes conn s :
  result_of (cleanup E conn s) = Ok tt →
  count is_close (events_of (cleanup E conn s)) = 1%nat
  ∧ count is_mysql_close (events_of (cleanup E conn s)) = 1%nat.
Proof.
  intros H. destruct (cleanup_run E conn s) as (_ & _ & Hev).
  by rewrite (Hev H).
Qed.

(** X14.  A run that ends through [sys.exit] has closed nothing: neither
    [close] of the SQLite connection nor [close] of the MySQL connection
    is called on any of the script's fatal paths. *)
Theorem fatal_exit_closes_nothing gs qs s :
  fatal (result_of (main E gs qs s)) →
  count is_close (events_of (main E gs qs s)) = 0%nat
  ∧ count is_mysql_close (events_of (main E gs qs s)) = 0%nat.
Proof.
  intros Hf. split.
  - destruct (main_before_cleanup E is_close) with (gs := gs) (qs := qs)
      (s := s) as [[H _]|(pre & conn & s2 & _ & Hr & _)]; try done.
    destruct (cleanup_run E conn s2) as (_ & Hn & _).
    rewrite Hr in Hf. by destruct Hn.
  - destruct (main_before_cleanup E is_mysql_close) with (gs := gs) (qs := qs)
      (s := s) as [[H _]|(pre & conn & s2 & _ & Hr & _)]; try done.
    destruct (cleanup_run E conn s2) as (_ & Hn & _).
    rewrite Hr in Hf. by destruct Hn.
Qed.

Lemma probe_ok_connects path s t s' b :
  sqlite_db_has_tables E path s = (t, s', Ok b) →
  count is_sqlite_connect t = 1%nat.
Proof.
  unfold sqlite_db_has_tables, call_val, call, bind, ret, raise.
  repeat (case_match; simplify_eq/=); by intros; simplify_eq/=.
Qed.

Lemma open_connections_ok_connects gs qs s t s' opened :
  open_connections E gs qs s = (t, s', Ok opened) →
  count is_sqlite_connect t = 1%nat.
Proof.
  unfold open_connections. intros H.
  apply bind_inv in H as [(e & _ & [=])|(ta & sa & [] & tb & Ha & H & ->)].
  injection Ha as <- <-.
  apply bind_inv in H as [(e & _ & [=])|(tc & sb & database & td & Hb & H & ->)].
  assert (tc = []) as ->.
  { revert Hb. unfold getitem. destruct (_ !! _); by intros [= <- <-]. }
  apply bind_inv in H as [(e & _ & [=])|(t1 & s1 & [] & te & H1 & H & ->)].
  apply bind_inv in H as [(e & _ & [=])|(tf & sc & db & tg & Hc & H & ->)].
  assert (tf = []) as ->.
  { revert Hc. unfold getitem. destruct (_ !! _); by intros [= <- <- <-]. }
  apply bind_inv in H as [(e & _ & [=])|(th & sd & found & ti & Hd & H & ->)].
  injection Hd as <- <- <-.
  apply bind_inv in H as [(e & _ & [=])|(tj & s2 & [] & tk & Hv & H & ->)].
  apply bind_inv in H as [(e & _ & [=])|(tl & se & c & tm & Hs & H & ->)].
  injection H as <- <- <-.
  pose proof (emits_run _ _ _ _ _ _
                (open_db_connection_emits E is_sqlite_connect gs database
                   (λ _ _, eq_refl) (λ _, eq_refl)) H1) as F1.
  assert (count is_sqlite_connect tj = 0%nat) as Fv.
  { destruct (negb (e_path_exists E db sc)); [|by injection Hv as <- <-].
    apply count_none. refine (emits_run _ _ _ _ _ _ _ Hv).
    apply emits_try_except.
    - by apply verify_sqlite_storage_emits.
    - intros e k Hk. destruct e; simplify_eq/=. emits. }
  assert (count is_sqlite_connect tl = 1%nat) as Fc.
  { revert Hs. unfold try_except_else, getitem.
    destruct (sqlitedb_config gs !! "db_file") as [db'|]; [|done].
    unfold bind, ret, call_val, log, log_exception, sys_exit, emit, raise.
    destruct (e_sqlite_connect E db' s2) as [[h|] sx]; simpl; [|done].
    by intros [= <- <- <-]. }
  cbn [app count is_sqlite_connect].
  rewrite !count_app, (count_none _ _ F1), Fv, Fc. done.
Qed.

Lemma prepare_schema_ok_connects gs qs is_new conn s t s' imported :
  prepare_schema E gs qs is_new conn s = (t, s', Ok imported) →
  count is_sqlite_connect t = 1%nat.
Proof.
  unfold prepare_schema. intros H.
  apply bind_inv in H as [(e & _ & [=])|(ta & sa & db & tb & Ha & H & ->)].
  assert (ta = []) as ->.
  { revert Ha. unfold getitem. destruct (_ !! _); by intros [= <- <-]. }
  apply bind_inv in H as [(e & _ & [=])|(tp & sp & has & tc & Hp & H & ->)].
  apply probe_ok_connects in Hp.
  assert (count is_sqlite_connect tc = 0%nat) as Hc.
  { apply count_none. refine (emits_run _ _ _ _ _ _ _ H).
    unfold import_sqlite_db_schema, schema_step, index_defined, query.
    emits. }
  cbn [app]. by rewrite count_app, Hp, Hc.
Qed.

Lemma decide_drop_tables_ok_connects gs s t s' drop :
  decide_drop_tables E gs s = (t, s', Ok drop) →
  count is_sqlite_connect t = 1%nat.
Proof.
  unfold decide_drop_tables. intros H.
  apply bind_inv in H as [(e & _ & [=])|(ta & sa & [] & tb & Ha & H & ->)].
  injection Ha as <- <-.
  apply bind_inv in H as [(e & _ & [=])|(tc & sb & db & td & Hb & H & ->)].
  assert (tc = []) as ->.
  { revert Hb. unfold getitem. destruct (_ !! _); by intros [= <- <-]. }
  apply bind_inv in H as [(e & _ & [=])|(tp & sp & has & te & Hp & H & ->)].
  apply probe_ok_connects in Hp.
  assert (te = []) as -> by (destruct has; by injection H as <- <-).
  cbn [app count is_sqlite_connect]. rewrite count_app, Hp. done.
Qed.

(** X15.  A run that completes has opened three SQLite connections, the
    script's own and one for each of the two probes, and has closed one
    of them; it has closed the MySQL connection once.  The two
    connections of the probes are never closed by the script. *)
Theorem completed_run_connections gs qs s :
  result_of (main E gs qs s) = Ok tt →
  count is_sqlite_connect (events_of (main E gs qs s)) = 3%nat
  ∧ count is_close (events_of (main E gs qs s)) = 1%nat
  ∧ count is_mysql_close (events_of (main E gs qs s)) = 1%nat.
Proof.
  intros Hok. split_and!.
  - revert Hok. unfold main.
    stage H0 as t0 s0 opened; [|done]. unfold mirror_run.
    stage H1 as t1 s1 imported; [|done].
    stage H2 as t2 s2 u; [|done].
    stage H3 as t3 s3 drop; [|done].
    stage H4 as t4 s4 u'; [|done].
    intros _.
    apply open_connections_ok_connects in H0.
    apply prepare_schema_ok_connects in H1.
    apply decide_drop_tables_ok_connects in H3.
    assert (count is_sqlite_connect t2 = 0%nat) as F2.
    { apply count_none. refine (emits_run _ _ _ _ _ _ _ H2).
      by apply check_autocommit_emits. }
    assert (count is_sqlite_connect t4 = 0%nat) as F4.
    { apply count_none. refine (emits_run _ _ _ _ _ _ _ H4).
      by apply mirror_tables_emits. }
    assert (count is_sqlite_connect (cleanup E opened.2 s4).1.1 = 0%nat)
      as F5.
    { apply count_none. by apply (cleanup_emits E is_sqlite_connect). }
    rewrite !count_app, H0, H1, H3, F2, F4, F5. done.
  - destruct (main_before_cleanup E is_close) with (gs := gs) (qs := qs)
      (s := s) as [[_ [e He]]|(pre & conn & s2 & -> & Hr & Hp)];
      try done; [congruence|].
    rewrite Hr in Hok. destruct (cleanup_closes conn s2 Hok) as [Hc _].
    by rewrite count_app, Hp, Hc.
  - destruct (main_before_cleanup E is_mysql_close) with (gs := gs)
      (qs := qs) (s := s) as [[_ [e He]]|(pre & conn & s2 & -> & Hr & Hp)];
      try done; [congruence|].
    rewrite Hr in Hok. destruct (cleanup_closes conn s2 Hok) as [_ Hc].
    by rewrite count_app, Hp, Hc.
Qed.

End Connections.

Section ConnectionsExamples.
Import RefEngine Examples MoreExamples.

Lemma fatal_exit_closes_nothing_witness :
  count is_close
    (events_of (main eng (settings false false) catalog_bad_write stale_db))
  = 0%nat.
Proof.
  apply (fatal_exit_closes_nothing eng (settings false false)
           catalog_bad_write stale_db).
  exists (ExitStatus 1). vm_compute. reflexivity.
Defined.

Lemma completed_run_connections_witness :
  count is_sqlite_connect
    (events_of (main eng (settings false false) catalog fresh)) = 3%nat.
Proof.
  apply (completed_run_connections eng (settings false false) catalog fresh).
  vm_compute. reflexivity.
Defined.

End ConnectionsExamples.

(** ** The schema script *)

Section SchemaScript.
Context {S : Type} (E : engine S).

Lemma append_empty_r (s : string) : s +:+ EmptyString = s.
Proof.
  induction s as [|a s IH]; [done|].
  change (String a (s +:+ EmptyString) = String a s). by rewrite IH.
Qed.

Lemma odict_get_of_key {V} k (d : odict V) :
  k ∈ odict_keys d → ∃ v, odict_get k d = Some v.
Proof.
  intros Hin. destruct (odict_get k d) as [v|] eqn:H; [by eexists|].
  by apply odict_get_None in H.
Qed.

Lemma schema_step_run qs acc table entry (s : S) :
  odict_get table (queries qs) = Some entry →
  schema_step qs acc table s
  = ([], s,
     match entry !! "new" with
     | Some _ =>
         Ok ((acc +:+ schema_line (field qs table "new"))
             +:+ (if has_index qs table
                  then schema_line (field qs table "index")
                  else EmptyString))
     | None => Raise (KeyError "new")
     end).
Proof.
  intros Hq. unfold schema_step, field, has_index. rewrite Hq.
  destruct (entry !! "new") as [new|] eqn:Hn.
  - rewrite (bind_quiet _ _ _ _ (query_defined qs table entry _ _ s Hq Hn)).
    destruct (entry !! "index") as [index|] eqn:Hi.
    + assert (index_defined qs table s = ([], s, Ok true)) as Hd.
      { unfold index_defined, odict_getitem. rewrite Hq, bind_ret_l, Hi.
        by rewrite (bind_quiet _ _ _ _
                      (query_defined qs table entry _ _ s Hq Hi)). }
      rewrite (bind_quiet _ _ _ _ Hd).
      rewrite (bind_quiet _ _ _ _ (query_defined qs table entry _ _ s Hq Hi)).
      rewrite bool_decide_eq_true_2 by eauto. done.
    + rewrite (bind_quiet _ _ _ _ (index_defined_absent qs table entry s Hq Hi)).
      rewrite bool_decide_eq_false_2 by (by intros [? ?]).
      unfold ret. cbn [default]. by rewrite append_empty_r.
  - by rewrite (bind_raise _ _ _ _ _ _
                  (query_undefined qs table entry "new" s Hq Hn)).
Qed.

Lemma schema_loop_ok qs keys acc (s : S) :
  (∀ table, table ∈ keys →
     ∃ entry, odict_get table (queries qs) = Some entry
              ∧ is_Some (entry !! "new")) →
  for_acc keys acc (schema_step qs) s
  = ([], s,
     Ok (foldl (λ script table,
                  (script +:+ schema_line (field qs table "new"))
                  +:+ (if has_index qs table
                       then schema_line (field qs table "index")
                       else EmptyString))
           acc keys)).
Proof.
  revert acc. induction keys as [|x xs IH]; intros acc Hall; [done|].
  destruct (Hall x) as (entry & Hq & [new Hn]); [apply list_elem_of_here|].
  cbn [for_acc foldl].
  pose proof (schema_step_run qs acc x entry s Hq) as Hs. rewrite Hn in Hs.
  rewrite (bind_quiet _ _ _ _ Hs). apply IH.
  intros table Hin. by apply Hall, list_elem_of_further.
Qed.

Lemma schema_loop_missing qs keys acc (s : S) :
  (∀ table, table ∈ keys → table ∈ odict_keys (queries qs)) →
  (∃ table entry, table ∈ keys ∧ odict_get table (queries qs) = Some entry
                  ∧ entry !! "new" = None) →
  for_acc keys acc (schema_step qs) s = ([], s, Raise (KeyError "new")).
Proof.
  revert acc. induction keys as [|x xs IH]; intros acc Hsub Hex.
  { destruct Hex as (table & _ & Hin & _). by apply elem_of_nil in Hin. }
  destruct (odict_get_of_key x (queries qs)) as [entry Hq];
    [apply Hsub, list_elem_of_here|].
  cbn [for_acc].
  pose proof (schema_step_run qs acc x entry s Hq) as Hs.
  destruct (entry !! "new") as [new|] eqn:Hn.
  - rewrite (bind_quiet _ _ _ _ Hs). apply IH.
    + intros table Hin. by apply Hsub, list_elem_of_further.
    + destruct Hex as (table & entry' & Hin & Hq' & Hn').
      apply elem_of_cons in Hin as [->|Hin]; [congruence|].
      by exists table, entry'.
  - by rewrite (bind_raise _ _ _ _ _ _ Hs).
Qed.

(** X16.  For a catalog whose entries all have a create statement, the
    importer hands exactly one script to [executescript]: for every table,
    in catalog order, the create statement and then, when the entry has
    one, the index statement, each on a line of its own and closed by a
    semicolon.  This holds for an empty catalog too, whose script is
    empty.  A script that fails is logged and ends the process with
    [sys.exit(1)]. *)
Theorem import_executes_one_script conn gs qs s :
  all_have "new" qs →
  import_sqlite_db_schema E conn gs qs s
  = match e_executescript E conn (schema_script qs) s with
    | (true, s') =>
        ([Log INFO import_started;
          SqliteExecutescript conn (schema_script qs);
          Log INFO "Created database with imported schema ..."], s', Ok tt)
    | (false, s') =>
        ([Log INFO import_started;
          SqliteExecutescript conn (schema_script qs);
          Log ERROR "Failed to create schema: %s"], s',
         Raise (SystemExit (ExitStatus 1)))
    end.
Proof.
  intros Hall. apply import_run. by apply schema_loop_ok.
Qed.

(** X17.  When some table of the catalog has no create statement, the
    importer ends in [KeyError] while it is still putting the script
    together: nothing is executed on the destination, not even the create
    statements of the tables that precede the incomplete one. *)
Theorem import_without_create_executes_nothing conn gs qs s table entry :
  table ∈ odict_keys (queries qs) →
  odict_get table (queries qs) = Some entry → entry !! "new" = None →
  import_sqlite_db_schema E conn gs qs s
  = ([Log INFO import_started], s, Raise (KeyError "new")).
Proof.
  intros Hin Hq Hn. unfold import_sqlite_db_schema. rewrite bind_log.
  assert (for_acc (odict_keys (queries qs)) EmptyString (schema_step qs) s
          = ([], s, Raise (KeyError "new"))) as Hs.
  { apply schema_loop_missing; [done|]. by exists table, entry. }
  by rewrite (bind_raise _ _ _ _ _ _ Hs).
Qed.

End SchemaScript.

Section SchemaScriptExamples.
Import RefEngine Examples MoreExamples.

Example catalog_script :
  schema_script catalog
  = nl +:+ "CREATE TABLE users(id INT, name TEXT);" +:+ nl
    +:+ nl +:+ "CREATE TABLE domains(id INT, name TEXT);" +:+ nl
    +:+ nl +:+ "CREATE INDEX domains_idx ON domains (name);" +:+ nl.
Proof. vm_compute. reflexivity. Qed.

Lemma import_executes_one_script_witness :
  events_of (import_sqlite_db_schema eng 0%nat (settings false false)
               catalog connected)
  = [Log INFO import_started;
     SqliteExecutescript 0%nat (schema_script catalog);
     Log INFO "Created database with imported schema ..."].
Proof.
  rewrite (import_executes_one_script eng 0%nat (settings false false)
             catalog connected).
  - vm_compute. reflexivity.
  - intros table Hin.
    apply elem_of_cons in Hin as [->|Hin]; [by eexists; split; eauto|].
    apply list_elem_of_singleton in Hin as ->. by eexists; split; eauto.
Defined.

Lemma import_without_create_executes_nothing_witness :
  import_sqlite_db_schema eng 0%nat (settings false false)
    catalog_without_new connected
  = ([Log INFO import_started], connected, Raise (KeyError "new")).
Proof.
  apply (import_without_create_executes_nothing eng 0%nat
           (settings false false) catalog_without_new connected "users"
           users_without_new).
  - set_solver.
  - reflexivity.
  - reflexivity.
Defined.

End SchemaScriptExamples.

(** ** More on the storage check *)

Section StorageCheck.
Context {S : Type} (E : engine S).

(** X18.  The two flags are read only when the base directory is
    missing: for an existing directory the storage check does the same
    whatever the flags are, and works with settings that define neither
    of them. *)
Theorem storage_check_reads_flags_only_without_directory gs gs' qs qs' s
    base_dir :
  sqlitedb_config gs' = sqlitedb_config gs →
  sqlitedb_config gs !! "base_dir" = Some base_dir →
  e_path_isdir E base_dir s = true →
  verify_sqlite_storage E gs' qs' s = verify_sqlite_storage E gs qs s.
Proof.
  intros Heq Hb Hd.
  unfold verify_sqlite_storage, getitem, ask, bind, ret.
  rewrite Heq, Hb. cbn [fst snd]. by rewrite Hd.
Qed.

(** X19.  The storage check calls no database.  The only thing it can
    change is the directory tree: it calls [os.makedirs] at most once,
    and only with [fail_on_warnings] clear and [create_directories] set;
    when it does not, it leaves the world as it found it. *)
Theorem storage_check_effects gs qs s :
  count is_database_call (events_of (verify_sqlite_storage E gs qs s))
  = 0%nat
  ∧ (count is_makedirs (events_of (verify_sqlite_storage E gs qs s)) ≤ 1)%nat
  ∧ (count is_makedirs (events_of (verify_sqlite_storage E gs qs s)) = 0%nat
     → state_of (verify_sqlite_storage E gs qs s) = s)
  ∧ (count is_makedirs (events_of (verify_sqlite_storage E gs qs s)) = 1%nat
     → flags gs !! "fail_on_warnings" = Some false
       ∧ flags gs !! "create_directories" = Some true).
Proof.
  unfold verify_sqlite_storage, file_can_be_modified, dir_can_be_modified,
    try_except_else, getitem, ask, call, log, log_exception, sys_exit, emit,
    bind, raise, ret, events_of, state_of.
  repeat (case_match; simplify_eq/=); split_and!; done || lia.
Qed.

End StorageCheck.

Section StorageCheckExamples.
Import RefEngine Examples MoreExamples.

Lemma storage_check_reads_flags_only_without_directory_witness :
  verify_sqlite_storage eng
    {| flags := ∅; mysqldb_config := ∅;
       sqlitedb_config := sqlitedb_config (settings false false) |}
    catalog_empty fresh
  = verify_sqlite_storage eng (settings false false) catalog fresh.
Proof.
  apply (storage_check_reads_flags_only_without_directory eng
           (settings false false) _ catalog catalog_empty fresh
           "/var/cache/mysql2sqlite"); reflexivity.
Defined.

Lemma storage_check_effects_witness :
  state_of (verify_sqlite_storage eng (settings true true) catalog
              no_directory) = no_directory.
Proof.
  apply (storage_check_effects eng (settings true true) catalog no_directory).
  vm_compute. reflexivity.
Defined.

End StorageCheckExamples.

(** ** A probe that fails *)

Section ProbeFailure.
Context {S : Type} (E : engine S).

(** X20.  The probe handles no error of its own and the script wraps
    neither of its two calls: the probe can only end in [sqlite3.Error],
    [TypeError] or [IndexError], never in [sys.exit], and when the first
    probe of a run raises, the run ends right there with that exception,
    the importer not entered and nothing committed. *)
Theorem probe_failure_is_uncaught gs qs path :
  raises_only (λ e, e = sqlite3_Error ∨ e = TypeError ∨ e = IndexError)
    (sqlite_db_has_tables E path)
  ∧ ∀ s0 t0 s1 is_new conn db t1 s2 e,
      open_connections E gs qs s0 = (t0, s1, Ok (is_new, conn)) →
      sqlitedb_config gs !! "db_file" = Some db →
      sqlite_db_has_tables E db s1 = (t1, s2, Raise e) →
      main E gs qs s0 = (t0 ++ t1, s2, Raise e)
      ∧ ¬ fatal (result_of (main E gs qs s0))
      ∧ count is_import_start (events_of (main E gs qs s0)) = 0%nat
      ∧ count is_commit (events_of (main E gs qs s0)) = 0%nat.
Proof.
  assert (∀ path',
            raises_only
              (λ e, e = sqlite3_Error ∨ e = TypeError ∨ e = IndexError)
              (sqlite_db_has_tables E path')) as Hraise.
  { intros path'. unfold sqlite_db_has_tables.
    apply raises_bind; [apply raises_call_val; eauto|]. intros con.
    apply raises_bind; [apply raises_call; eauto|]. intros _.
    apply raises_bind; [apply raises_call_val; eauto|]. intros fetched.
    apply raises_bind; [|intros; apply raises_ret].
    destruct fetched as [[|v r]|];
      [apply raises_raise; eauto|apply raises_ret|apply raises_raise; eauto]. }
  split; [apply Hraise|].
  intros s0 t0 s1 is_new conn db t1 s2 e H0 Hdb Hp.
  assert (main E gs qs s0 = (t0 ++ t1, s2, Raise e)) as Hmain.
  { unfold main. rewrite (bind_ok _ _ _ _ _ _ H0). cbn [fst snd].
    unfold mirror_run, prepare_schema, getitem. rewrite Hdb.
    erewrite (bind_raise _ _ s1 t1 s2 e).
    - done.
    - rewrite bind_ret_l. by apply bind_raise. }
  rewrite Hmain. unfold result_of, events_of. cbn [fst snd].
  destruct (no_import_before_schema E gs qs db) as [B0 B1].
  pose proof (emits_run _ _ _ _ _ _ B0 H0) as F0.
  pose proof (emits_run _ _ _ _ _ _ B1 Hp) as F1.
  apply Forall_and in F0 as [F0 _]. apply Forall_and in F1 as [F1 _].
  destruct (no_commit_before_cleanup E gs qs) as (C0 & _).
  pose proof (emits_run _ _ _ _ _ _ C0 H0) as G0.
  assert (Forall (λ ev, is_commit ev = false) t1) as G1.
  { refine (emits_run _ _ _ _ _ _ _ Hp). by apply probe_emits. }
  split_and!; [done| | |].
  - intros [a [= ->]].
    specialize (Hraise db s1 (SystemExit a)). rewrite Hp in Hraise.
    by destruct (Hraise eq_refl) as [?|[?|?]].
  - by rewrite count_app, (count_none _ _ F0), (count_none _ _ F1).
  - by rewrite count_app, (count_none _ _ G0), (count_none _ _ G1).
Qed.

End ProbeFailure.

Section ProbeFailureExamples.
Import RefEngine Examples MoreExamples.

Lemma probe_failure_is_uncaught_witness :
  result_of (main not_a_database (settings false false) catalog stale_db)
  = Raise sqlite3_Error
  ∧ count is_commit
      (events_of (main not_a_database (settings false false) catalog
                    stale_db)) = 0%nat.
Proof.
  destruct (proj2 (probe_failure_is_uncaught not_a_database
                     (settings false false) catalog (db_file stale_db))
              stale_db
              (events_of (open_connections not_a_database
                            (settings false false) catalog stale_db))
              (state_of (open_connections not_a_database
                            (settings false false) catalog stale_db))
              false 0%nat (db_file stale_db)
              (events_of (sqlite_db_has_tables not_a_database
                            (db_file stale_db)
                            (state_of (open_connections not_a_database
                               (settings false false) catalog stale_db))))
              (state_of (sqlite_db_has_tables not_a_database
                            (db_file stale_db)
                            (state_of (open_connections not_a_database
                               (settings false false) catalog stale_db))))
              sqlite3_Error)
    as (Hmain & _ & _ & Hcommit).
  - vm_compute. reflexivity.
  - vm_compute. reflexivity.
  - vm_compute. reflexivity.
  - split; [by rewrite Hmain|exact Hcommit].
Defined.

End ProbeFailureExamples.
